(** * EduNova lesson generator

    A shallow embedding of [lessons/services/openai_service.py]: the lazily
    initialised provider client, the duration tiers, the validation of a
    candidate response and the bounded retry loop of
    [generate_lesson_content].

    Python values are modelled as follows.
    - [str] is a sequence of Unicode code points, [list N];
    - [int] is [Z];
    - a [dict] with string keys is a [gmap (list N) _], a [set] a [gset];
    - exceptions are data: a call returns [inl e] when it raises [e];
    - the module global [_client], the log and the calls sent to the
      provider live in an explicit [world] threaded through a small
      state-and-exception monad. *)

From Stdlib Require Import ZArith QArith_base Ascii String List Lia.
From stdpp Require Import gmap strings list.

(** ** Python strings *)

Module PyStr.

(** A literal of the source, as code points. *)
Definition lit (s : string) : list N :=
  (λ a, N_of_ascii a) <$> String.list_ascii_of_string s.

(** [str.isspace] on one code point: the characters on which
    [str.split()] and [str.strip()] cut. *)
Definition isspace (c : N) : bool :=
  ((9 <=? c) && (c <=? 13) || (28 <=? c) && (c <=? 32) ||
   (c =? 133) || (c =? 160) || (c =? 5760) ||
   (8192 <=? c) && (c <=? 8202) || (c =? 8232) || (c =? 8233) ||
   (c =? 8239) || (c =? 8287) || (c =? 12288))%N.

(** [s.split()]: the maximal runs of non-whitespace characters. [cur] is
    the run being read, most recent character first. *)
Fixpoint split_from (s cur : list N) : list (list N) :=
  match s with
  | [] => match cur with [] => [] | _ => [rev cur] end
  | c :: rest =>
      if isspace c then
        match cur with
        | [] => split_from rest []
        | _ => rev cur :: split_from rest []
        end
      else split_from rest (c :: cur)
  end.

Definition split (s : list N) : list (list N) := split_from s [].

(** [s.split("\n\n")]: cut at each occurrence of two line feeds, read from
    the left, occurrences not overlapping. The result is never empty. *)
Fixpoint split_nn_from (s cur : list N) : list (list N) :=
  match s with
  | [] => [rev cur]
  | c :: rest =>
      match rest with
      | c' :: rest' =>
          if ((c =? 10) && (c' =? 10))%N
          then rev cur :: split_nn_from rest' []
          else split_nn_from rest (c :: cur)
      | [] => [rev (c :: cur)]
      end
  end.

Definition split_nn (s : list N) : list (list N) := split_nn_from s [].

Fixpoint lstrip (s : list N) : list N :=
  match s with
  | c :: rest => if isspace c then lstrip rest else s
  | [] => []
  end.

Definition rstrip (s : list N) : list N := rev (lstrip (rev s)).

(** [s.strip()] *)
Definition strip (s : list N) : list N := rstrip (lstrip s).

(** Truth value of a string: non-empty. *)
Definition truthy (s : list N) : bool :=
  match s with [] => false | _ => true end.

End PyStr.

(** ** The one floating-point computation: [int(min_words * 0.7)] *)

Module PyFloat.

(** The binary64 number written [0.7] is [m07 * 2^-53]
    (0x1.6666666666666p-1), slightly below seven tenths. *)
Definition m07 : Z := 6305039478318694.

(** Round a non-negative integer to 53 significant bits, to nearest,
    ties to even: the significand of a binary64 product. *)
Definition round53 (p : Z) : Z :=
  let bits := (Z.log2 p + 1)%Z in
  if (bits <=? 53)%Z then p
  else
    let sh := (bits - 53)%Z in
    let q := Z.shiftr p sh in
    let r := Z.land p (Z.ones sh) in
    let half := Z.shiftl 1 (sh - 1) in
    let q' := if (half <? r)%Z || ((r =? half)%Z && Z.odd q)
              then (q + 1)%Z else q in
    Z.shiftl q' sh.

(** [int(n * 0.7)] for an [int] n of magnitude below 2^53: [n] converts
    exactly, the product is rounded once, [int] truncates toward zero. *)
Definition int_mul_0_7 (n : Z) : Z :=
  (Z.sgn n * Z.shiftr (round53 (Z.abs n * m07)) 53)%Z.

End PyFloat.

(** ** Values decoded from JSON *)

#[warnings="-register-all"]
Inductive pyvalue :=
| PNone
| PBool (b : bool)
| PInt (n : Z)
| PFloat (bits : Z)
| PStr (s : list N)
| PList (l : list pyvalue)
| PDict (d : gmap (list N) pyvalue).

(** [type(v).__name__] *)
Definition type_name (v : pyvalue) : string :=
  match v with
  | PNone => "NoneType"
  | PBool _ => "bool"
  | PInt _ => "int"
  | PFloat _ => "float"
  | PStr _ => "str"
  | PList _ => "list"
  | PDict _ => "dict"
  end.

(** [isinstance(v, str)] *)
Definition is_str (v : pyvalue) : bool :=
  match v with PStr _ => true | _ => false end.

(** [isinstance(v, list) and all(isinstance(x, str) for x in v)] *)
Definition is_list_of_str (v : pyvalue) : bool :=
  match v with PList l => forallb is_str l | _ => false end.

(** ** Exceptions

    Every exception of the model is an instance of a subclass of
    [Exception]. The text of a message built by an f-string is kept as the
    values interpolated into it. *)

Inductive exn :=
| ValueError (m : message)
| AttributeError (type_of_object attribute : string)
| KeyError (key : list N)
| IndexError
| LibraryError (class_name : string) (text : list N)
| Exception_ (m : message)
with message :=
| MsgNotConfigured
| MsgUnexpectedKeys (extra : gset (list N))
| MsgMustBeString (field : string)
| MsgMustBeListOfStr (field : string)
| MsgTruncated
| MsgEmptyResponse
| MsgTooShort (word_count min_words duration_minutes : Z)
| MsgFailedAfterRetries (last_error : option exn).

(** ** Duration tiers *)

Record tier := {
  paragraphs : string;
  min_words : Z;
  max_tokens : Z;
  activities_count : string;
  questions_count : string;
  lesson_type : string
}.

Definition SHORT : tier :=
  {| paragraphs := "4-5"; min_words := 400; max_tokens := 1600;
     activities_count := "5-7"; questions_count := "6-10";
     lesson_type := "SHORT" |}.

Definition MEDIUM : tier :=
  {| paragraphs := "7-9"; min_words := 600; max_tokens := 2600;
     activities_count := "6-8"; questions_count := "8-12";
     lesson_type := "MEDIUM" |}.

Definition LONG : tier :=
  {| paragraphs := "12-16"; min_words := 800; max_tokens := 4200;
     activities_count := "8-10"; questions_count := "10-15";
     lesson_type := "LONG" |}.

(** The [if duration_minutes <= 30 / elif duration_minutes <= 60 / else]
    at the head of [generate_lesson_content]. *)
Definition tier_params (duration_minutes : Z) : tier :=
  if (duration_minutes <=? 30)%Z then SHORT
  else if (duration_minutes <=? 60)%Z then MEDIUM
  else LONG.

(** The bound of the length check, [int(min_words * 0.7)]. *)
Definition min_word_count (t : tier) : Z := PyFloat.int_mul_0_7 (min_words t).

(** ** Errors as values: the pure part *)

#[export] Instance exn_ret : MRet (sum exn) := λ A a, inr a.
#[export] Instance exn_bind : MBind (sum exn) :=
  λ A B f x, match x with inl e => inl e | inr a => f a end.

(** [if cond: raise e] *)
Definition raise_if (cond : bool) (e : exn) : exn + unit :=
  if cond then inl e else inr ().

(** [v.keys()], as the set that [set(v.keys())] builds. *)
Definition keys (v : pyvalue) : exn + gset (list N) :=
  match v with
  | PDict d => inr (dom d)
  | _ => inl (AttributeError (type_name v) "keys")
  end.

(** [v[k]] for a string [k]. *)
Definition subscript (v : pyvalue) (k : list N) : exn + pyvalue :=
  match v with
  | PDict d =>
      match d !! k with Some x => inr x | None => inl (KeyError k) end
  | _ => inl (LibraryError "TypeError" (PyStr.lit (type_name v)))
  end.

(** [v.get(k, dflt)] *)
Definition dict_get (v : pyvalue) (k : list N) (dflt : pyvalue)
  : exn + pyvalue :=
  match v with
  | PDict d => inr (default dflt (d !! k))
  | _ => inl (AttributeError (type_name v) "get")
  end.

(** [v.split()] and [v.split("\n\n")] *)
Definition str_split (v : pyvalue) : exn + list (list N) :=
  match v with
  | PStr s => inr (PyStr.split s)
  | _ => inl (AttributeError (type_name v) "split")
  end.

Definition str_split_nn (v : pyvalue) : exn + list (list N) :=
  match v with
  | PStr s => inr (PyStr.split_nn s)
  | _ => inl (AttributeError (type_name v) "split")
  end.

Definition k_description : list N := PyStr.lit "description".
Definition k_content : list N := PyStr.lit "content".
Definition k_activities : list N := PyStr.lit "activities".
Definition k_questions : list N := PyStr.lit "questions".
Definition k_summary : list N := PyStr.lit "summary".

Definition expected_keys : gset (list N) :=
  {[ k_description; k_content; k_activities; k_questions; k_summary ]}.

Definition _validate_result (result : pyvalue) : exn + unit :=
  ks ← keys result;
  raise_if (bool_decide (ks ≠ expected_keys))
    (ValueError (MsgUnexpectedKeys (ks ∖ expected_keys)));;
  d ← subscript result k_description;
  raise_if (negb (is_str d)) (ValueError (MsgMustBeString "description"));;
  c ← subscript result k_content;
  raise_if (negb (is_str c)) (ValueError (MsgMustBeString "content"));;
  s ← subscript result k_summary;
  raise_if (negb (is_str s)) (ValueError (MsgMustBeString "summary"));;
  a ← subscript result k_activities;
  raise_if (negb (is_list_of_str a))
    (ValueError (MsgMustBeListOfStr "activities"));;
  q ← subscript result k_questions;
  raise_if (negb (is_list_of_str q))
    (ValueError (MsgMustBeListOfStr "questions")).

(** [_lesson_schema()] *)
Definition string_type : pyvalue :=
  PDict {[ PyStr.lit "type" := PStr (PyStr.lit "string") ]}.

Definition array_of_string_type : pyvalue :=
  PDict (<[ PyStr.lit "type" := PStr (PyStr.lit "array") ]>
         {[ PyStr.lit "items" := string_type ]}).

Definition _lesson_schema : pyvalue :=
  PDict
    (<[ PyStr.lit "type" := PStr (PyStr.lit "object") ]>
     (<[ PyStr.lit "additionalProperties" := PBool false ]>
      (<[ PyStr.lit "properties" :=
            PDict (<[ k_description := string_type ]>
                   (<[ k_content := string_type ]>
                    (<[ k_activities := array_of_string_type ]>
                     (<[ k_questions := array_of_string_type ]>
                      {[ k_summary := string_type ]})))) ]>
       {[ PyStr.lit "required" :=
            PList [PStr k_description; PStr k_content; PStr k_activities;
                   PStr k_questions; PStr k_summary] ]}))).

(** ** The provider interface *)

(** An [OpenAI] client object. *)
Record client := { api_key : list N }.

(** The user prompt: the template of the source is fixed, so the prompt is
    determined by the values interpolated into it. *)
Record prompt := {
  pr_topic : list N;
  pr_subject : list N;
  pr_grade_level : list N;
  pr_duration_minutes : Z;
  pr_paragraphs : string;
  pr_min_words : Z;
  pr_activities_count : string;
  pr_questions_count : string;
  pr_lesson_type : string
}.

Definition system_message : string :=
  "You are an expert educational content creator. " ++
  "Output MUST be valid JSON that conforms to the provided schema. " ++
  "No markdown, no commentary.".

(** The keyword arguments of [client.chat.completions.create]. The
    temperature 0.3 is kept as the fraction written in the source. *)
Record request := {
  req_model : list N;
  req_system : string;
  req_user : prompt;
  req_temperature : Q;
  req_max_tokens : Z;
  req_schema_name : string;
  req_schema : pyvalue;
  req_strict : bool
}.

(** One element of [response.choices]: [finish_reason] (None when the
    attribute is missing) and [message.content] (None or a string). *)
Record choice := {
  finish_reason : option (list N);
  content : option (list N)
}.

Record response := { choices : list choice }.

(** ** The world: the global [_client], and what the process has done *)

(** The three states of the module global [_client]. *)
Inductive client_slot :=
| SlotNone
| SlotFalse
| SlotClient (c : client).

Inductive log_record :=
| LogClientInitFailed (e : exn)
| LogKeyNotFound
| LogAttemptFailed (attempt : Z) (e : exn)
| LogFewParagraphs (paragraph_count : Z) (expected : string).

Inductive event :=
| EvWarning (r : log_record)
| EvError (r : log_record)
| EvCreate (c : client) (r : request)
| EvSleep (attempt : Z).

Record world := {
  _client : client_slot;
  trace : list event
}.

Definition is_create (ev : event) : bool :=
  match ev with EvCreate _ _ => true | _ => false end.

(** The requests sent to the provider so far. *)
Definition calls_made (w : world) : nat :=
  length (List.filter is_create (trace w)).

(** ** The monad of the stateful code *)

Definition M (A : Type) : Type := world → (exn + A) * world.

#[export] Instance M_ret : MRet M := λ A a w, (inr a, w).
#[export] Instance M_bind : MBind M :=
  λ A B f m w,
    match m w with
    | (inl e, w') => (inl e, w')
    | (inr a, w') => f a w'
    end.

Definition raise {A} (e : exn) : M A := λ w, (inl e, w).

Definition lift {A} (r : exn + A) : M A := λ w, (r, w).

(** [try: m / except Exception as e: ...]: the exception becomes a value,
    the effects of [m] stay. *)
Definition try_ {A} (m : M A) : M (exn + A) := λ w,
  let '(r, w') := m w in (inr r, w').

Definition get_client : M client_slot := λ w, (inr (_client w), w).

Definition set_client (s : client_slot) : M unit := λ w,
  (inr (), {| _client := s; trace := trace w |}).

Definition emit (ev : event) : M unit := λ w,
  (inr (), {| _client := _client w; trace := trace w ++ [ev] |}).

(** ** Processes used in the examples *)

Module Demo.

Definition words (n : nat) : list N :=
  concat (replicate n (PyStr.lit "word ")).

Definition bundle_of (text : list N) : gmap (list N) pyvalue :=
  <[ k_description := PStr (PyStr.lit "About plants") ]>
  (<[ k_content := PStr text ]>
   (<[ k_activities := PList [PStr (PyStr.lit "Draw a leaf")] ]>
    (<[ k_questions := PList [PStr (PyStr.lit "What is light?")] ]>
     {[ k_summary := PStr (PyStr.lit "Plants eat light.") ]}))).

(** A decoder for the examples: the text "ok" decodes to a bundle of 600
    words in one paragraph, "short" to one of 10 words, "list" to a
    list, anything else is not JSON. *)
Definition json_loads (raw : list N) : exn + pyvalue :=
  if decide (raw = PyStr.lit "ok") then inr (PDict (bundle_of (words 600)))
  else if decide (raw = PyStr.lit "short")
  then inr (PDict (bundle_of (words 10)))
  else if decide (raw = PyStr.lit "list") then inr (PList [])
  else inl (LibraryError "JSONDecodeError" (PyStr.lit "Expecting value")).

Definition getenv_key (name : list N) : option (list N) :=
  if decide (name = PyStr.lit "OPENAI_API_KEY")
  then Some (PyStr.lit "sk-demo") else None.

Definition getenv_none (name : list N) : option (list N) := None.

Definition OpenAI (key : list N) : exn + client :=
  inr {| api_key := key |}.

Definition reply (reason text : string) : exn + response :=
  inr {| choices := [ {| finish_reason := Some (PyStr.lit reason);
                         content := Some (PyStr.lit text) |} ] |}.

Definition create_ok (c : client) (n : nat) (r : request)
  : exn + response := reply "stop" "ok".

Definition create_truncated (c : client) (n : nat) (r : request)
  : exn + response := reply "length" "ok".

Definition create_short (c : client) (n : nat) (r : request)
  : exn + response := reply "stop" "short".

Definition create_down (c : client) (n : nat) (r : request)
  : exn + response :=
  inl (LibraryError "APIConnectionError" (PyStr.lit "Connection error.")).

Definition fresh : world := {| _client := SlotNone; trace := [] |}.

Definition the_client : client := {| api_key := PyStr.lit "sk-demo" |}.

(** The process once the client has been built. *)
Definition ready : world :=
  {| _client := SlotClient the_client; trace := [] |}.

Definition topic : list N := PyStr.lit "Photosynthesis".
Definition subject : list N := PyStr.lit "Biology".
Definition grade : list N := PyStr.lit "Grade 7".

(** A bundle with a sixth key, and one whose content is a number. *)
Definition with_extra_key : gmap (list N) pyvalue :=
  <[ PyStr.lit "notes" := PNone ]> (bundle_of (words 600)).

Definition with_number_content : gmap (list N) pyvalue :=
  <[ k_content := PInt 7 ]> (bundle_of (words 600)).

Definition stop_ok : choice :=
  {| finish_reason := Some (PyStr.lit "stop");
     content := Some (PyStr.lit "ok") |}.

Definition length_ok : choice :=
  {| finish_reason := Some (PyStr.lit "length");
     content := Some (PyStr.lit "ok") |}.

End Demo.

(** ** The generator *)

Section Generator.

(** [os.getenv] *)
Variable getenv : list N → option (list N).
(** The constructor [OpenAI(api_key=...)]. *)
Variable OpenAI : list N → exn + client.
(** [client.chat.completions.create]; the second argument is the number
    of requests the process has sent before this one. *)
Variable create : client → nat → request → exn + response.
(** [json.loads] *)
Variable json_loads : list N → exn + pyvalue.

Definition key_not_found : M unit :=
  emit (EvWarning LogKeyNotFound);; set_client SlotFalse.

Definition get_openai_client : M (option client) :=
  c ← get_client;
  match c with
  | SlotNone =>
      match getenv (PyStr.lit "OPENAI_API_KEY") with
      | Some key =>
          if PyStr.truthy key then
            match OpenAI key with
            | inr cl => set_client (SlotClient cl)
            | inl e =>
                emit (EvError (LogClientInitFailed e));;
                set_client SlotFalse
            end
          else key_not_found
      | None => key_not_found
      end
  | _ => mret ()
  end;;
  c' ← get_client;
  mret (match c' with SlotClient cl => Some cl | _ => None end).

Definition call_create (cl : client) (req : request) : M response := λ w,
  (create cl (calls_made w) req,
   {| _client := _client w; trace := trace w ++ [EvCreate cl req] |}).

Definition first_choice (r : response) : exn + choice :=
  match choices r with c :: _ => inr c | [] => inl IndexError end.

(** The number of paragraphs the soft check counts. *)
Definition count_paragraphs (pieces : list (list N)) : Z :=
  Z.of_nat
    (length (List.filter (λ p, PyStr.truthy (PyStr.strip p)) pieces)).

(** The body of the [try] of one attempt. *)
Definition attempt_body (cl : client) (req : request) (t : tier)
    (duration_minutes : Z) : M (gmap (list N) pyvalue) :=
  resp ← call_create cl req;
  ch ← lift (first_choice resp);
  let raw := PyStr.strip (default [] (content ch)) in
  lift (raise_if (bool_decide (finish_reason ch = Some (PyStr.lit "length")))
          (ValueError MsgTruncated));;
  lift (raise_if (negb (PyStr.truthy raw)) (ValueError MsgEmptyResponse));;
  result ← lift (json_loads raw);
  lift (_validate_result result);;
  content_text ← lift (dict_get result k_content (PStr []));
  ws ← lift (str_split content_text);
  let word_count := Z.of_nat (length ws) in
  lift (raise_if (word_count <? min_word_count t)%Z
          (ValueError
             (MsgTooShort word_count (min_words t) duration_minutes)));;
  ps ← lift (str_split_nn content_text);
  let paragraph_count := count_paragraphs ps in
  (if (paragraph_count <? 3)%Z
   then emit (EvWarning (LogFewParagraphs paragraph_count (paragraphs t)))
   else mret ());;
  d ← lift (subscript result k_description);
  c ← lift (subscript result k_content);
  a ← lift (subscript result k_activities);
  q ← lift (subscript result k_questions);
  s ← lift (subscript result k_summary);
  mret (<[ k_description := d ]>
        (<[ k_content := c ]>
         (<[ k_activities := a ]>
          (<[ k_questions := q ]> {[ k_summary := s ]})))).

(** [for attempt in attempts: try: ... except Exception as e: ...], then
    the final [raise]. *)
Fixpoint retry_loop (attempts : list Z) (last_error : option exn)
    (cl : client) (req : request) (t : tier) (duration_minutes : Z)
    : M (gmap (list N) pyvalue) :=
  match attempts with
  | [] => raise (Exception_ (MsgFailedAfterRetries last_error))
  | attempt :: rest =>
      r ← try_ (attempt_body cl req t duration_minutes);
      match r with
      | inr bundle => mret bundle
      | inl e =>
          emit (EvError (LogAttemptFailed attempt e));;
          emit (EvSleep attempt);;
          retry_loop rest (Some e) cl req t duration_minutes
      end
  end.

(** The prompt, the model name and the schema: what every attempt
    sends. *)
Definition lesson_request
    (topic subject grade_level : list N) (duration_minutes : Z)
    : request :=
  let t := tier_params duration_minutes in
  let p := {| pr_topic := topic; pr_subject := subject;
              pr_grade_level := grade_level;
              pr_duration_minutes := duration_minutes;
              pr_paragraphs := paragraphs t;
              pr_min_words := min_words t;
              pr_activities_count := activities_count t;
              pr_questions_count := questions_count t;
              pr_lesson_type := lesson_type t |} in
  let model :=
    default (PyStr.lit "gpt-4o")
            (getenv (PyStr.lit "OPENAI_LESSON_MODEL")) in
  {| req_model := model; req_system := system_message;
     req_user := p; req_temperature := Qmake 3 10;
     req_max_tokens := max_tokens t;
     req_schema_name := "lesson_content";
     req_schema := _lesson_schema;
     req_strict := true |}.

Definition generate_lesson_content
    (topic subject grade_level : list N) (duration_minutes : Z)
    : M (gmap (list N) pyvalue) :=
  cl ← get_openai_client;
  match cl with
  | None => raise (ValueError MsgNotConfigured)
  | Some cl =>
      retry_loop [1; 2; 3]%Z None cl
        (lesson_request topic subject grade_level duration_minutes)
        (tier_params duration_minutes) duration_minutes
  end.

End Generator.

(** ** Vocabulary of the properties *)

(** [len(text.split())] *)
Definition word_count (text : list N) : Z :=
  Z.of_nat (length (PyStr.split text)).

(** The text that is decoded: [(message.content or "").strip()]. *)
Definition raw_text (ch : choice) : list N :=
  PyStr.strip (default [] (content ch)).

(** The world after some more events. *)
Definition after (w : world) (evs : list event) : world :=
  {| _client := _client w; trace := trace w ++ evs |}.

(** A content bundle: exactly the five keys, three of them strings and two
    of them lists of strings. *)
Definition content_bundle (b : gmap (list N) pyvalue) : Prop :=
  dom b = expected_keys ∧
  (∃ s, b !! k_description = Some (PStr s)) ∧
  (∃ s, b !! k_content = Some (PStr s)) ∧
  (∃ s, b !! k_summary = Some (PStr s)) ∧
  (∃ l, b !! k_activities = Some (PList (PStr <$> l))) ∧
  (∃ l, b !! k_questions = Some (PList (PStr <$> l))).

(** The answer of the provider makes the attempt fail with [e]: the ways
    in which the body of the [try] raises. *)
Inductive attempt_fails (json_loads : list N → exn + pyvalue) (t : tier)
    (duration_minutes : Z) : exn + response → exn → Prop :=
| fails_transport e :
    attempt_fails json_loads t duration_minutes (inl e) e
| fails_no_choice resp :
    choices resp = [] →
    attempt_fails json_loads t duration_minutes (inr resp) IndexError
| fails_truncated resp ch :
    first_choice resp = inr ch →
    finish_reason ch = Some (PyStr.lit "length") →
    attempt_fails json_loads t duration_minutes (inr resp)
      (ValueError MsgTruncated)
| fails_empty resp ch :
    first_choice resp = inr ch →
    finish_reason ch ≠ Some (PyStr.lit "length") →
    raw_text ch = [] →
    attempt_fails json_loads t duration_minutes (inr resp)
      (ValueError MsgEmptyResponse)
| fails_parse resp ch e :
    first_choice resp = inr ch →
    finish_reason ch ≠ Some (PyStr.lit "length") →
    raw_text ch ≠ [] →
    json_loads (raw_text ch) = inl e →
    attempt_fails json_loads t duration_minutes (inr resp) e
| fails_validation resp ch v e :
    first_choice resp = inr ch →
    finish_reason ch ≠ Some (PyStr.lit "length") →
    raw_text ch ≠ [] →
    json_loads (raw_text ch) = inr v →
    _validate_result v = inl e →
    attempt_fails json_loads t duration_minutes (inr resp) e
| fails_too_short resp ch b text :
    first_choice resp = inr ch →
    finish_reason ch ≠ Some (PyStr.lit "length") →
    raw_text ch ≠ [] →
    json_loads (raw_text ch) = inr (PDict b) →
    _validate_result (PDict b) = inr () →
    b !! k_content = Some (PStr text) →
    (word_count text < min_word_count t)%Z →
    attempt_fails json_loads t duration_minutes (inr resp)
      (ValueError
         (MsgTooShort (word_count text) (min_words t) duration_minutes)).

(** The answer of the provider passes every check that can reject it, and
    decodes to [b] whose content is [text]. *)
Definition passes_checks (json_loads : list N → exn + pyvalue) (t : tier)
    (resp : response) (b : gmap (list N) pyvalue) (text : list N) : Prop :=
  ∃ ch,
    first_choice resp = inr ch ∧
    finish_reason ch ≠ Some (PyStr.lit "length") ∧
    raw_text ch ≠ [] ∧
    json_loads (raw_text ch) = inr (PDict b) ∧
    _validate_result (PDict b) = inr () ∧
    b !! k_content = Some (PStr text) ∧
    (min_word_count t ≤ word_count text)%Z.

(** The answer of the provider is not cut off and its text decodes to
    [v]: the candidate that validation sees. *)
Definition decoded_as (json_loads : list N → exn + pyvalue)
    (resp : response) (v : pyvalue) : Prop :=
  ∃ ch,
    first_choice resp = inr ch ∧
    finish_reason ch ≠ Some (PyStr.lit "length") ∧
    raw_text ch ≠ [] ∧
    json_loads (raw_text ch) = inr v.

Definition not_a_string (v : pyvalue) : Prop := ∀ s, v ≠ PStr s.

(** Not a list, or a list with an element that is not a string. *)
Definition not_a_list_of_strings (v : pyvalue) : Prop :=
  (∀ l, v ≠ PList l) ∨ (∃ l x, v = PList l ∧ x ∈ l ∧ not_a_string x).

(** One of the five fields has the wrong type. *)
Definition ill_typed (d : gmap (list N) pyvalue) : Prop :=
  (∃ v, d !! k_description = Some v ∧ not_a_string v) ∨
  (∃ v, d !! k_content = Some v ∧ not_a_string v) ∨
  (∃ v, d !! k_summary = Some v ∧ not_a_string v) ∨
  (∃ v, d !! k_activities = Some v ∧ not_a_list_of_strings v) ∨
  (∃ v, d !! k_questions = Some v ∧ not_a_list_of_strings v).

(** The events of one accepted attempt: the call, and the warning of the
    soft check when the content has fewer than three paragraphs. *)
Definition accepted_events (cl : client) (req : request) (t : tier)
    (text : list N) : list event :=
  let n := count_paragraphs (PyStr.split_nn text) in
  EvCreate cl req ::
  (if (n <? 3)%Z then [EvWarning (LogFewParagraphs n (paragraphs t))]
   else []).

(** The events of one failed attempt. *)
Definition failed_events (cl : client) (req : request) (attempt : Z)
    (e : exn) : list event :=
  [EvCreate cl req; EvError (LogAttemptFailed attempt e); EvSleep attempt].

(** The events of the failed attempts numbered [attempts], whose errors
    are [errors], in order. *)
Definition failures (cl : client) (req : request) (attempts : list Z)
    (errors : list exn) : list event :=
  concat (zip_with (failed_events cl req) attempts errors).

(** The answers to the requests numbered from [n] on make one attempt
    after the other fail, with the errors [errors]. *)
Definition all_fail (json_loads : list N → exn + pyvalue)
    (create : client → nat → request → exn + response)
    (cl : client) (req : request) (t : tier) (duration_minutes : Z)
    (n : nat) (errors : list exn) : Prop :=
  ∀ i e, errors !! i = Some e →
         attempt_fails json_loads t duration_minutes
           (create cl (n + i)%nat req) e.

(** [last_error] after the failures [errors]. *)
Definition last_error_after (last : option exn) (errors : list exn)
  : option exn :=
  match list.last errors with
  | Some e => Some e
  | None => last
  end.

(** ** The lesson serializer: lessons/serializers.py *)

Module Serializers.

(** [serializers.ValidationError(msg)] *)
Definition ValidationError (msg : string) : exn :=
  LibraryError "ValidationError" (PyStr.lit msg).

(** [isinstance(value, list)] *)
Definition is_list (value : pyvalue) : bool :=
  match value with PList _ => true | _ => false end.

Definition validate_activities (value : pyvalue) : exn + pyvalue :=
  raise_if (negb (is_list value))
    (ValidationError "Activities must be a list.");;
  mret value.

Definition validate_questions (value : pyvalue) : exn + pyvalue :=
  raise_if (negb (is_list value))
    (ValidationError "Questions must be a list.");;
  mret value.

End Serializers.

(** ** The lesson permissions: lessons/permissions.py *)

Module Permissions.

(** [request.user]: a row of the user table, or the anonymous user. *)
Inductive user :=
| AnonymousUser
| User (pk : Z).

#[export] Instance user_eq_dec : EqDecision user.
Proof. solve_decision. Defined.

(** What the permissions read of a request. *)
Record http_request := {
  method : string;
  request_user : user
}.

(** What the permissions read of a lesson: [obj.is_public] and the key of
    the row [obj.user]. *)
Record lesson := {
  is_public : bool;
  lesson_user : Z
}.

(** [permissions.SAFE_METHODS] of the REST framework. *)
Definition SAFE_METHODS : list string := ["GET"; "HEAD"; "OPTIONS"].

(** [obj.user == request.user]: rows are equal when their keys are, and no
    row equals the anonymous user. *)
Definition is_owner (request : http_request) (obj : lesson) : bool :=
  bool_decide (User (lesson_user obj) = request_user request).

Module IsLessonOwner.

Definition has_object_permission (request : http_request) (obj : lesson)
  : bool :=
  if bool_decide (method request ∈ SAFE_METHODS)
  then is_public obj || is_owner request obj
  else is_owner request obj.

End IsLessonOwner.

Module IsLessonOwnerOrReadOnly.

Definition has_object_permission (request : http_request) (obj : lesson)
  : bool :=
  if bool_decide (method request ∈ SAFE_METHODS)
  then is_public obj || is_owner request obj
  else is_owner request obj.

End IsLessonOwnerOrReadOnly.

End Permissions.

(** ** The response format: the part of JSON Schema that
    [_lesson_schema] uses *)

Module JsonSchema.

Definition properties_of (s : gmap (list N) pyvalue)
  : gmap (list N) pyvalue :=
  match s !! PyStr.lit "properties" with Some (PDict p) => p | _ => ∅ end.

Definition required_of (s : gmap (list N) pyvalue) : list pyvalue :=
  match s !! PyStr.lit "required" with Some (PList r) => r | _ => [] end.

(** [additionalProperties] is [False]. *)
Definition closed (s : gmap (list N) pyvalue) : bool :=
  match s !! PyStr.lit "additionalProperties" with
  | Some (PBool false) => true
  | _ => false
  end.

Definition has_key (d : gmap (list N) pyvalue) (k : pyvalue) : bool :=
  match k with PStr k => bool_decide (k ∈ dom d) | _ => false end.

(** [v] is an instance of [schema]: a string for the type "string", a list
    of instances of [items] for "array", and for "object" a dictionary
    with the required keys, whose values are instances of the schemas of
    their properties, and without other keys when the schema is closed.
    [depth] bounds the nesting of the schema. *)
Fixpoint conforms (depth : nat) (schema v : pyvalue) : bool :=
  match depth, schema with
  | S n, PDict s =>
      match s !! PyStr.lit "type" with
      | Some (PStr ty) =>
          if decide (ty = PyStr.lit "string") then is_str v
          else if decide (ty = PyStr.lit "array") then
            match v with
            | PList l =>
                match s !! PyStr.lit "items" with
                | Some items => forallb (conforms n items) l
                | None => true
                end
            | _ => false
            end
          else if decide (ty = PyStr.lit "object") then
            match v with
            | PDict d =>
                forallb (has_key d) (required_of s)
                && forallb
                     (λ kv, match d !! kv.1 with
                            | Some x => conforms n kv.2 x
                            | None => true
                            end)
                     (map_to_list (properties_of s))
                && (negb (closed s)
                    || bool_decide (dom d ⊆ dom (properties_of s)))
            | _ => false
            end
          else false
      | _ => true
      end
  | _, _ => false
  end.

(** The dictionary of [_lesson_schema]. *)
Definition lesson_schema_fields : gmap (list N) pyvalue :=
  match _lesson_schema with PDict s => s | _ => ∅ end.

(** The value of the property [kv.1], when present, is an instance of its
    schema [kv.2], one level down from an object of depth 3. *)
Definition field_ok (d : gmap (list N) pyvalue) (kv : list N * pyvalue)
  : bool :=
  match d !! kv.1 with Some x => conforms 2 kv.2 x | None => true end.

End JsonSchema.

(** ** More processes for the examples *)

Module Scenario.

(** A provider whose first answer is cut off and whose later answers are
    complete. *)
Definition create_second_ok (c : client) (n : nat) (r : request)
  : exn + response :=
  if (n =? 0)%nat then Demo.reply "length" "ok" else Demo.reply "stop" "ok".

(** A provider that answers with blanks, and one that answers without
    choices. *)
Definition blank : choice :=
  {| finish_reason := Some (PyStr.lit "stop");
     content := Some (PyStr.lit "   ") |}.

Definition create_blank (c : client) (n : nat) (r : request)
  : exn + response := inr {| choices := [blank] |}.

Definition create_no_choice (c : client) (n : nat) (r : request)
  : exn + response := inr {| choices := [] |}.

Definition getenv_empty (name : list N) : option (list N) :=
  if decide (name = PyStr.lit "OPENAI_API_KEY") then Some [] else None.

Definition broken : exn :=
  LibraryError "OpenAIError" (PyStr.lit "bad key").

Definition OpenAI_broken (key : list N) : exn + client := inl broken.

(** The process after a first use without a key. *)
Definition unavailable : world :=
  {| _client := SlotFalse; trace := [EvWarning LogKeyNotFound] |}.

(** A bundle without its summary. *)
Definition without_summary : gmap (list N) pyvalue :=
  delete k_summary (Demo.bundle_of (Demo.words 600)).

Definition request45 : request :=
  lesson_request Demo.getenv_key Demo.topic Demo.subject Demo.grade 45.

(** A public lesson of user 1, a private one, and three requests. *)
Definition public_lesson : Permissions.lesson :=
  {| Permissions.is_public := true; Permissions.lesson_user := 1 |}.

Definition private_lesson : Permissions.lesson :=
  {| Permissions.is_public := false; Permissions.lesson_user := 1 |}.

Definition anonymous_delete : Permissions.http_request :=
  {| Permissions.method := "DELETE";
     Permissions.request_user := Permissions.AnonymousUser |}.

Definition anonymous_get : Permissions.http_request :=
  {| Permissions.method := "GET";
     Permissions.request_user := Permissions.AnonymousUser |}.

Definition owner_put : Permissions.http_request :=
  {| Permissions.method := "PUT";
     Permissions.request_user := Permissions.User 1 |}.

End Scenario.

(** ** Properties *)

(** *** The pure part *)

Lemma raise_if_inr c e : raise_if c e = inr () ↔ c = false.
Proof. destruct c; simpl; split; congruence. Qed.

Ltac step H x :=
  destruct x eqn:?; cbn [mbind exn_bind mret exn_ret] in H;
  try discriminate H.

Lemma validate_ok_inv v :
  _validate_result v = inr () →
  ∃ d vd vc vs va vq,
    v = PDict d ∧ dom d = expected_keys ∧
    d !! k_description = Some vd ∧ is_str vd = true ∧
    d !! k_content = Some vc ∧ is_str vc = true ∧
    d !! k_summary = Some vs ∧ is_str vs = true ∧
    d !! k_activities = Some va ∧ is_list_of_str va = true ∧
    d !! k_questions = Some vq ∧ is_list_of_str vq = true.
Proof.
  intros H. destruct v; try discriminate H.
  unfold _validate_result in H.
  cbn [keys mbind exn_bind subscript] in H.
  repeat match type of H with
         | context [raise_if ?c ?e] => step H (raise_if c e)
         | context [?m !! ?k] => step H (m !! k)
         end.
  repeat match goal with
         | u : unit |- _ => destruct u
         | E : raise_if _ _ = inr () |- _ => apply raise_if_inr in E
         | E : negb _ = false |- _ => apply negb_false_iff in E
         | E : bool_decide _ = false |- _ => apply bool_decide_eq_false in E
         end.
  eexists d, _, _, _, _, _.
  repeat split; try eassumption.
  destruct (decide (dom d = expected_keys)); [done|]. by exfalso.
Qed.

Lemma validate_ok_intro d vd vc vs va vq :
  dom d = expected_keys →
  d !! k_description = Some vd → is_str vd = true →
  d !! k_content = Some vc → is_str vc = true →
  d !! k_summary = Some vs → is_str vs = true →
  d !! k_activities = Some va → is_list_of_str va = true →
  d !! k_questions = Some vq → is_list_of_str vq = true →
  _validate_result (PDict d) = inr ().
Proof.
  intros Hdom Hd Sd Hc Sc Hs Ss Ha Sa Hq Sq.
  unfold _validate_result. cbn [keys mbind exn_bind subscript].
  rewrite bool_decide_eq_false_2 by (intros Hne; by apply Hne).
  rewrite Hd, Hc, Hs, Ha, Hq.
  cbn [mbind exn_bind raise_if negb]. rewrite Sd.
  cbn [mbind exn_bind raise_if negb]. rewrite Sc.
  cbn [mbind exn_bind raise_if negb]. rewrite Ss.
  cbn [mbind exn_bind raise_if negb]. rewrite Sa.
  cbn [mbind exn_bind raise_if negb]. rewrite Sq. reflexivity.
Qed.

Lemma is_str_inv v : is_str v = true → ∃ s, v = PStr s.
Proof. destruct v; try discriminate. eauto. Qed.

Lemma is_list_of_str_inv v :
  is_list_of_str v = true → ∃ l, v = PList (PStr <$> l).
Proof.
  destruct v as [| | | | |l|]; try discriminate. simpl.
  intros H. cut (∃ l', l = PStr <$> l').
  { intros [l' ->]. eauto. }
  induction l as [|x l IH]; [by exists []|].
  simpl in H. apply andb_true_iff in H as [Hx Hl].
  destruct (is_str_inv _ Hx) as [s ->], (IH Hl) as [l' ->].
  by exists (s :: l').
Qed.

Lemma not_a_string_false v : not_a_string v → is_str v = false.
Proof. intros H. destruct v; try done. by destruct (H s). Qed.

Lemma not_a_list_of_strings_false v :
  not_a_list_of_strings v → is_list_of_str v = false.
Proof.
  intros [H|(l & x & -> & Hx & Hs)].
  - destruct v; try done. by destruct (H l).
  - cbn. destruct (forallb is_str l) eqn:E; [|done].
    rewrite forallb_forall in E. apply list_elem_of_In, E in Hx.
    by rewrite (not_a_string_false _ Hs) in Hx.
Qed.

Lemma elem_of_expected_keys k :
  k ∈ expected_keys ↔
  k = k_description ∨ k = k_content ∨ k = k_activities ∨
  k = k_questions ∨ k = k_summary.
Proof.
  unfold expected_keys. rewrite !elem_of_union, !elem_of_singleton. tauto.
Qed.

(** The dictionary built by the [return] is the decoded one. *)
Lemma bundle_rebuild (d : gmap (list N) pyvalue) vd vc va vq vs :
  dom d = expected_keys →
  d !! k_description = Some vd → d !! k_content = Some vc →
  d !! k_activities = Some va → d !! k_questions = Some vq →
  d !! k_summary = Some vs →
  <[ k_description := vd ]>
    (<[ k_content := vc ]>
      (<[ k_activities := va ]>
        (<[ k_questions := vq ]> {[ k_summary := vs ]}))) = d.
Proof.
  intros Hdom Hd Hc Ha Hq Hs. apply map_eq. intros i.
  destruct (decide (i = k_description)) as [->|?];
    [by rewrite lookup_insert_eq|rewrite lookup_insert_ne by done].
  destruct (decide (i = k_content)) as [->|?];
    [by rewrite lookup_insert_eq|rewrite lookup_insert_ne by done].
  destruct (decide (i = k_activities)) as [->|?];
    [by rewrite lookup_insert_eq|rewrite lookup_insert_ne by done].
  destruct (decide (i = k_questions)) as [->|?];
    [by rewrite lookup_insert_eq|rewrite lookup_insert_ne by done].
  destruct (decide (i = k_summary)) as [->|?];
    [by rewrite lookup_singleton_eq|rewrite lookup_singleton_ne by done].
  symmetry. apply not_elem_of_dom. rewrite Hdom, elem_of_expected_keys.
  tauto.
Qed.

Lemma validated_is_bundle d :
  _validate_result (PDict d) = inr () → content_bundle d.
Proof.
  intros H. apply validate_ok_inv in H
    as (d' & vd & vc & vs & va & vq & [= <-] & Hdom & Hd & Sd & Hc & Sc &
        Hs & Ss & Ha & Sa & Hq & Sq).
  apply is_str_inv in Sd as [? ->], Sc as [? ->], Ss as [? ->].
  apply is_list_of_str_inv in Sa as [? ->], Sq as [? ->].
  unfold content_bundle. repeat split; eauto.
Qed.

(** *** The length bound *)

Lemma tier_params_cases d :
  tier_params d = SHORT ∨ tier_params d = MEDIUM ∨ tier_params d = LONG.
Proof. unfold tier_params. repeat case_match; auto. Qed.

Lemma min_word_count_exact d :
  (10 * min_word_count (tier_params d) = 7 * min_words (tier_params d))%Z.
Proof.
  destruct (tier_params_cases d) as [-> | [-> | ->]]; reflexivity.
Qed.

(** *** One attempt *)

Section Attempt.

Variable create : client → nat → request → exn + response.
Variable json_loads : list N → exn + pyvalue.
Variables (cl : client) (req : request) (t : tier) (duration_minutes : Z).

Ltac mstep :=
  unfold mbind, M_bind, mret, M_ret, lift, raise, emit, call_create,
    try_, raise_if;
  cbn beta iota zeta; cbn [negb PyStr.truthy].

Lemma attempt_body_fails w e :
  attempt_fails json_loads t duration_minutes
    (create cl (calls_made w) req) e →
  attempt_body create json_loads cl req t duration_minutes w
  = (inl e, after w [EvCreate cl req]).
Proof.
  unfold attempt_body, raw_text. mstep.
  inversion 1 as
    [e' Hc|resp Hch Hc|resp ch Hch Hfin Hc|resp ch Hch Hfin Hraw Hc
     |resp ch e' Hch Hfin Hraw Hjs Hc|resp ch v e' Hch Hfin Hraw Hjs Hv Hc
     |resp ch b text Hch Hfin Hraw Hjs Hv Htext Hwc Hc];
    subst; unfold raw_text, word_count in *; try reflexivity.
  - unfold first_choice. by rewrite Hch.
  - rewrite Hch. mstep. by rewrite bool_decide_eq_true_2.
  - rewrite Hch. mstep. rewrite bool_decide_eq_false_2 by done.
    mstep. by rewrite Hraw.
  - rewrite Hch. mstep. rewrite bool_decide_eq_false_2 by done.
    mstep. destruct (PyStr.strip _) eqn:E in *; [done|].
    mstep. by rewrite Hjs.
  - rewrite Hch. mstep. rewrite bool_decide_eq_false_2 by done.
    mstep. destruct (PyStr.strip _) eqn:E in *; [done|].
    mstep. rewrite Hjs. mstep. by rewrite Hv.
  - rewrite Hch. mstep. rewrite bool_decide_eq_false_2 by done.
    mstep. destruct (PyStr.strip _) eqn:E in *; [done|].
    mstep. rewrite Hjs. mstep. rewrite Hv. mstep.
    cbn [dict_get]. rewrite Htext. cbn [default from_option id str_split]. mstep.
    by rewrite (proj2 (Z.ltb_lt _ _) Hwc).
Qed.

Lemma attempt_body_accepts w resp b text :
  create cl (calls_made w) req = inr resp →
  passes_checks json_loads t resp b text →
  attempt_body create json_loads cl req t duration_minutes w
  = (inr b, after w (accepted_events cl req t text)).
Proof.
  intros Hc (ch & Hch & Hfin & Hraw & Hjs & Hv & Htext & Hwc).
  unfold attempt_body, raw_text, word_count in *. mstep.
  rewrite Hc, Hch. mstep. rewrite bool_decide_eq_false_2 by done.
  mstep. destruct (PyStr.strip _) eqn:E in *; [done|].
  mstep. rewrite Hjs. mstep. rewrite Hv. mstep.
  cbn [dict_get]. rewrite Htext. cbn [default from_option id str_split str_split_nn].
  mstep. rewrite (proj2 (Z.ltb_ge _ _) Hwc). mstep.
  destruct (validate_ok_inv _ Hv)
    as (d' & vd & vc & vs & va & vq & [= <-] & Hdom & Hd & _ & Hcn & _ &
        Hs & _ & Ha & _ & Hq & _).
  cbn [subscript]. unfold accepted_events, after.
  destruct (count_paragraphs _ <? 3)%Z; mstep;
    rewrite Hd, Hcn, Ha, Hq, Hs; mstep;
    rewrite (bundle_rebuild b vd vc va vq vs) by done;
    cbn [_client trace]; by rewrite <- ?app_assoc.
Qed.

Lemma attempt_rejects_invalid w resp v e :
  create cl (calls_made w) req = inr resp →
  decoded_as json_loads resp v →
  _validate_result v = inl e →
  attempt_body create json_loads cl req t duration_minutes w
  = (inl e, after w [EvCreate cl req]).
Proof.
  intros Hc (ch & Hch & Hfin & Hraw & Hjs) Hv.
  apply attempt_body_fails. rewrite Hc. by eapply fails_validation.
Qed.

(** Every answer either fails the attempt or passes the checks. *)
Lemma attempt_outcome_cases (o : exn + response) :
  (∃ e, attempt_fails json_loads t duration_minutes o e) ∨
  (∃ resp b text, o = inr resp ∧ passes_checks json_loads t resp b text).
Proof.
  destruct o as [e|resp]; [left; eexists; constructor|].
  destruct (first_choice resp) as [e|ch] eqn:Hch.
  { left. exists IndexError. apply fails_no_choice.
    unfold first_choice in Hch. by destruct (choices resp). }
  destruct (decide (finish_reason ch = Some (PyStr.lit "length")))
    as [Hfin|Hfin].
  { left. eexists. by eapply fails_truncated. }
  destruct (decide (raw_text ch = [])) as [Hraw|Hraw].
  { left. eexists. by eapply fails_empty. }
  destruct (json_loads (raw_text ch)) as [e|v] eqn:Hjs.
  { left. eexists. by eapply fails_parse. }
  destruct (_validate_result v) as [e|[]] eqn:Hv.
  { left. eexists. by eapply fails_validation. }
  destruct (validate_ok_inv _ Hv)
    as (d & vd & vc & vs & va & vq & -> & Hdom & Hd & _ & Hcn & Sc & _).
  apply is_str_inv in Sc as [text ->].
  destruct (Z.lt_ge_cases (word_count text) (min_word_count t)).
  - left. eexists. by eapply fails_too_short.
  - right. exists resp, d, text. split; [done|]. by exists ch.
Qed.

Lemma attempt_body_ok_inv w w' b :
  attempt_body create json_loads cl req t duration_minutes w
  = (inr b, w') →
  ∃ resp text,
    create cl (calls_made w) req = inr resp ∧
    passes_checks json_loads t resp b text ∧
    w' = after w (accepted_events cl req t text).
Proof.
  intros H.
  destruct (attempt_outcome_cases (create cl (calls_made w) req))
    as [[e He]|(resp & b' & text & Hc & Hp)].
  - apply (attempt_body_fails w) in He. congruence.
  - pose proof (attempt_body_accepts w _ _ _ Hc Hp) as H'.
    rewrite H in H'. injection H' as -> ->. eauto.
Qed.

Lemma attempt_body_err_inv w w' e :
  attempt_body create json_loads cl req t duration_minutes w
  = (inl e, w') →
  attempt_fails json_loads t duration_minutes
    (create cl (calls_made w) req) e ∧
  w' = after w [EvCreate cl req].
Proof.
  intros H.
  destruct (attempt_outcome_cases (create cl (calls_made w) req))
    as [[e' He]|(resp & b' & text & Hc & Hp)].
  - pose proof (attempt_body_fails w _ He) as H'.
    rewrite H in H'. injection H' as -> ->. done.
  - pose proof (attempt_body_accepts w _ _ _ Hc Hp) as H'. congruence.
Qed.

End Attempt.

(** *** The retry loop *)

Lemma after_after w evs evs' :
  after (after w evs) evs' = after w (evs ++ evs').
Proof. unfold after. cbn [_client trace]. by rewrite app_assoc. Qed.

Lemma calls_made_after w evs :
  calls_made (after w evs)
  = (calls_made w + length (List.filter is_create evs))%nat.
Proof.
  unfold calls_made, after. cbn [trace].
  by rewrite List.filter_app, length_app.
Qed.

Lemma calls_made_failed w cl req attempt e :
  calls_made (after w (failed_events cl req attempt e)) = S (calls_made w).
Proof. rewrite calls_made_after. cbn. lia. Qed.

Section Loop.

Variable create : client → nat → request → exn + response.
Variable json_loads : list N → exn + pyvalue.
Variables (cl : client) (req : request) (t : tier) (duration_minutes : Z).

Lemma retry_loop_fail_step attempt rest last w e :
  attempt_fails json_loads t duration_minutes
    (create cl (calls_made w) req) e →
  retry_loop create json_loads (attempt :: rest) last cl req t
    duration_minutes w
  = retry_loop create json_loads rest (Some e) cl req t duration_minutes
      (after w (failed_events cl req attempt e)).
Proof.
  intros He. cbn [retry_loop].
  unfold mbind at 1, M_bind at 1, try_.
  rewrite (attempt_body_fails _ _ _ _ _ _ _ _ He).
  unfold mbind, M_bind, emit. cbn beta iota.
  f_equal. unfold after, failed_events. cbn [_client trace].
  by rewrite <- !app_assoc.
Qed.

Lemma retry_loop_accept_step attempt rest last w resp b text :
  create cl (calls_made w) req = inr resp →
  passes_checks json_loads t resp b text →
  retry_loop create json_loads (attempt :: rest) last cl req t
    duration_minutes w
  = (inr b, after w (accepted_events cl req t text)).
Proof.
  intros Hc Hp. cbn [retry_loop].
  unfold mbind at 1, M_bind at 1, try_.
  by rewrite (attempt_body_accepts _ _ _ _ _ _ _ _ _ _ Hc Hp).
Qed.

(** What the loop returns was accepted by one of its attempts. *)
Lemma retry_loop_ok_inv attempts last w w' b :
  retry_loop create json_loads attempts last cl req t duration_minutes w
  = (inr b, w') →
  ∃ resp text, passes_checks json_loads t resp b text.
Proof.
  revert last w. induction attempts as [|attempt rest IH]; intros last w H.
  - discriminate H.
  - destruct (attempt_outcome_cases json_loads t duration_minutes
                (create cl (calls_made w) req))
      as [[e He]|(resp & b' & text & Hc & Hp)].
    + rewrite (retry_loop_fail_step _ _ _ _ _ He) in H. eauto.
    + rewrite (retry_loop_accept_step _ _ _ _ _ _ _ Hc Hp) in H.
      injection H as -> _. eauto.
Qed.

(** A loop that raises has used up its attempts, and raises the wrapper
    of the last error. *)
Lemma retry_loop_err_inv attempts last w w' e :
  retry_loop create json_loads attempts last cl req t duration_minutes w
  = (inl e, w') →
  ∃ last', e = Exception_ (MsgFailedAfterRetries last') ∧
           calls_made w' = (calls_made w + length attempts)%nat.
Proof.
  revert last w. induction attempts as [|attempt rest IH]; intros last w H.
  - injection H as <- <-. exists last. split; [done|]. cbn. lia.
  - destruct (attempt_outcome_cases json_loads t duration_minutes
                (create cl (calls_made w) req))
      as [[e' He]|(resp & b' & text & Hc & Hp)].
    + rewrite (retry_loop_fail_step _ _ _ _ _ He) in H.
      apply IH in H as (last' & -> & Hn). exists last'. split; [done|].
      rewrite Hn, calls_made_failed. cbn. lia.
    + rewrite (retry_loop_accept_step _ _ _ _ _ _ _ Hc Hp) in H.
      discriminate H.
Qed.

(** The loop only adds events. *)
Lemma retry_loop_trace attempts last w r w' :
  retry_loop create json_loads attempts last cl req t duration_minutes w
  = (r, w') →
  ∃ tail, trace w' = trace w ++ tail.
Proof.
  revert last w. induction attempts as [|attempt rest IH]; intros last w H.
  - injection H as <- <-. exists []. by rewrite app_nil_r.
  - destruct (attempt_outcome_cases json_loads t duration_minutes
                (create cl (calls_made w) req))
      as [[e' He]|(resp & b' & text & Hc & Hp)].
    + rewrite (retry_loop_fail_step _ _ _ _ _ He) in H.
      apply IH in H as [tail ->]. unfold after. cbn [trace].
      rewrite <- app_assoc. eauto.
    + rewrite (retry_loop_accept_step _ _ _ _ _ _ _ Hc Hp) in H.
      injection H as <- <-. unfold after. cbn [trace]. eauto.
Qed.

End Loop.

(** *** The client *)

Section Client.

Variable getenv : list N → option (list N).
Variable OpenAI : list N → exn + client.

Lemma get_openai_client_ready w cl :
  _client w = SlotClient cl →
  get_openai_client getenv OpenAI w = (inr (Some cl), w).
Proof.
  intros H. unfold get_openai_client, mbind, M_bind, get_client.
  cbn beta iota. rewrite H. unfold mret, M_ret. by rewrite H.
Qed.

Lemma get_openai_client_unavailable w :
  _client w = SlotFalse →
  get_openai_client getenv OpenAI w = (inr None, w).
Proof.
  intros H. unfold get_openai_client, mbind, M_bind, get_client.
  cbn beta iota. rewrite H. unfold mret, M_ret. by rewrite H.
Qed.

Lemma get_openai_client_no_key w :
  _client w = SlotNone →
  getenv (PyStr.lit "OPENAI_API_KEY") = None →
  get_openai_client getenv OpenAI w
  = (inr None,
     {| _client := SlotFalse;
        trace := trace w ++ [EvWarning LogKeyNotFound] |}).
Proof.
  intros H Hk. unfold get_openai_client, mbind, M_bind, get_client.
  cbn beta iota. rewrite H, Hk. reflexivity.
Qed.

(** Getting the client never raises and sends nothing. *)
Lemma get_openai_client_total w :
  ∃ o w', get_openai_client getenv OpenAI w = (inr o, w') ∧
          calls_made w' = calls_made w.
Proof.
  unfold get_openai_client, mbind, M_bind, get_client, key_not_found.
  cbn beta iota.
  destruct (_client w) eqn:Hs; cbn;
    [destruct (getenv _) as [key|]; [destruct (PyStr.truthy key);
      [destruct (OpenAI key)|]|]|..];
    cbn; eexists _, _; (split; [reflexivity|]);
    unfold calls_made; cbn [trace];
    rewrite ?List.filter_app, ?length_app; cbn; lia.
Qed.

End Client.

(** *** The generator *)

Section Claims.

Variable getenv : list N → option (list N).
Variable OpenAI : list N → exn + client.
Variable create : client → nat → request → exn + response.
Variable json_loads : list N → exn + pyvalue.

Local Abbreviation generate :=
  (generate_lesson_content getenv OpenAI create json_loads).
Local Abbreviation loop := (retry_loop create json_loads).

Lemma generate_with_client topic subject grade_level duration_minutes
    w w0 cl :
  get_openai_client getenv OpenAI w = (inr (Some cl), w0) →
  generate topic subject grade_level duration_minutes w
  = loop [1; 2; 3]%Z None cl
      (lesson_request getenv topic subject grade_level duration_minutes)
      (tier_params duration_minutes) duration_minutes w0.
Proof.
  intros H. unfold generate_lesson_content, mbind, M_bind.
  by rewrite H.
Qed.

Lemma generate_without_client topic subject grade_level duration_minutes
    w w0 :
  get_openai_client getenv OpenAI w = (inr None, w0) →
  generate topic subject grade_level duration_minutes w
  = (inl (ValueError MsgNotConfigured), w0).
Proof.
  intros H. unfold generate_lesson_content, mbind, M_bind.
  by rewrite H.
Qed.

(** C1. A call of [generate_lesson_content] either raises or returns a
    dictionary with exactly the five keys description, content,
    activities, questions and summary, in which description, content and
    summary are strings and activities and questions are lists of
    strings, and whose content has at least the number of words that the
    length check of the tier of the duration asks for, 70% of the
    minimum of the tier. *)
Theorem generate_returns_bundle_or_raises
    topic subject grade_level duration_minutes w :
  let r := (generate topic subject grade_level duration_minutes w).1 in
  (∃ e, r = inl e) ∨
  (∃ b text,
     r = inr b ∧ content_bundle b ∧
     b !! k_content = Some (PStr text) ∧
     (min_word_count (tier_params duration_minutes) ≤ word_count text)%Z ∧
     (7 * min_words (tier_params duration_minutes)
      ≤ 10 * word_count text)%Z).
Proof.
  intros r. subst r.
  destruct (generate topic subject grade_level duration_minutes w)
    as [[e|b] w'] eqn:Hrun; [left; by exists e|right].
  destruct (get_openai_client_total getenv OpenAI w)
    as ([cl|] & w0 & Hcl & _).
  - rewrite (generate_with_client _ _ _ _ _ _ _ Hcl) in Hrun.
    apply retry_loop_ok_inv in Hrun
      as (resp & text & ch & _ & _ & _ & _ & Hv & Htext & Hwc).
    pose proof (min_word_count_exact duration_minutes).
    exists b, text.
    split; [done|]. split; [by apply validated_is_bundle|].
    split; [done|]. split; [done|lia].
  - rewrite (generate_without_client _ _ _ _ _ _ Hcl) in Hrun.
    discriminate Hrun.
Qed.

(** C3. With a client at hand, when the three answers of the provider
    each make their attempt fail, [generate_lesson_content] sends exactly
    three requests, logs each failure and sleeps after it, and then raises
    one [Exception] whose message carries the error of the third
    attempt. *)
Theorem exhausted_after_three_attempts
    topic subject grade_level duration_minutes w w0 cl e1 e2 e3 :
  let req :=
    lesson_request getenv topic subject grade_level duration_minutes in
  let t := tier_params duration_minutes in
  let fails n e :=
    attempt_fails json_loads t duration_minutes
      (create cl (calls_made w0 + n) req) e in
  get_openai_client getenv OpenAI w = (inr (Some cl), w0) →
  fails 0%nat e1 → fails 1%nat e2 → fails 2%nat e3 →
  let run := generate topic subject grade_level duration_minutes w in
  run = (inl (Exception_ (MsgFailedAfterRetries (Some e3))),
         after w0 (failed_events cl req 1 e1 ++ failed_events cl req 2 e2
                   ++ failed_events cl req 3 e3)) ∧
  calls_made run.2 = (calls_made w0 + 3)%nat.
Proof.
  intros req t fails Hcl H1 H2 H3 run. subst run fails. cbn beta in *.
  rewrite (generate_with_client _ _ _ _ _ _ _ Hcl). fold req t.
  rewrite Nat.add_0_r in H1.
  rewrite retry_loop_fail_step with (e := e1) by exact H1.
  rewrite retry_loop_fail_step with (e := e2)
    by (rewrite calls_made_failed, <- Nat.add_1_r; exact H2).
  rewrite retry_loop_fail_step with (e := e3)
    by (rewrite !calls_made_failed;
        replace (S (S (calls_made w0))) with (calls_made w0 + 2)%nat
          by lia;
        exact H3).
  cbn [retry_loop]. unfold raise. rewrite !after_after.
  split; [done|]. cbn [snd]. rewrite calls_made_after. cbn. lia.
Qed.

(** C2. The tier depends on the duration alone: up to 30 minutes the
    SHORT parameters (paragraphs 4-5, 400 words, activities 5-7,
    questions 6-10), from 31 to 60 the MEDIUM ones (7-9, 600, 6-8, 8-12),
    above 60 the LONG ones (12-16, 800, 8-10, 10-15); 30, 31, 60 and 61
    select SHORT, MEDIUM, MEDIUM and LONG; and the request of
    [generate_lesson_content] carries the parameters of that tier. *)
Theorem tier_selected_by_duration (d : Z) :
  ((d ≤ 30)%Z →
     tier_params d = SHORT ∧ paragraphs (tier_params d) = "4-5" ∧
     min_words (tier_params d) = 400%Z ∧
     activities_count (tier_params d) = "5-7" ∧
     questions_count (tier_params d) = "6-10") ∧
  ((31 ≤ d ≤ 60)%Z →
     tier_params d = MEDIUM ∧ paragraphs (tier_params d) = "7-9" ∧
     min_words (tier_params d) = 600%Z ∧
     activities_count (tier_params d) = "6-8" ∧
     questions_count (tier_params d) = "8-12") ∧
  ((60 < d)%Z →
     tier_params d = LONG ∧ paragraphs (tier_params d) = "12-16" ∧
     min_words (tier_params d) = 800%Z ∧
     activities_count (tier_params d) = "8-10" ∧
     questions_count (tier_params d) = "10-15") ∧
  (tier_params 30 = SHORT ∧ tier_params 31 = MEDIUM ∧
   tier_params 60 = MEDIUM ∧ tier_params 61 = LONG) ∧
  (∀ topic subject grade_level,
     let req := lesson_request getenv topic subject grade_level d in
     req_max_tokens req = max_tokens (tier_params d) ∧
     pr_paragraphs (req_user req) = paragraphs (tier_params d) ∧
     pr_min_words (req_user req) = min_words (tier_params d) ∧
     pr_activities_count (req_user req)
     = activities_count (tier_params d) ∧
     pr_questions_count (req_user req)
     = questions_count (tier_params d) ∧
     pr_lesson_type (req_user req) = lesson_type (tier_params d)).
Proof.
  unfold tier_params. repeat split; try reflexivity; intros;
    repeat case_match; try reflexivity; lia.
Qed.

(** C4. A decoded dictionary whose key set is not exactly the five
    expected keys is rejected by [_validate_result], whatever its fields
    hold, and the attempt that received it fails with that error. *)
Theorem wrong_key_set_is_rejected d cl req t duration_minutes w resp :
  dom d ≠ expected_keys →
  let e := ValueError (MsgUnexpectedKeys (dom d ∖ expected_keys)) in
  _validate_result (PDict d) = inl e ∧
  (create cl (calls_made w) req = inr resp →
   decoded_as json_loads resp (PDict d) →
   attempt_body create json_loads cl req t duration_minutes w
   = (inl e, after w [EvCreate cl req])).
Proof.
  intros Hne e.
  assert (_validate_result (PDict d) = inl e) as Hv.
  { unfold _validate_result. cbn [keys mbind exn_bind].
    by rewrite bool_decide_eq_true_2. }
  split; [done|]. intros Hc Hd. by eapply attempt_rejects_invalid.
Qed.

(** C5. An answer whose finish reason is "length" makes the attempt fail,
    whatever its text decodes to: the body of the [try] raises, the
    failure is logged, and the loop goes on with the attempts that are
    left. *)
Theorem truncated_answer_is_rejected
    cl req t duration_minutes attempt rest last w resp ch :
  create cl (calls_made w) req = inr resp →
  first_choice resp = inr ch →
  finish_reason ch = Some (PyStr.lit "length") →
  attempt_body create json_loads cl req t duration_minutes w
  = (inl (ValueError MsgTruncated), after w [EvCreate cl req]) ∧
  loop (attempt :: rest) last cl req t duration_minutes w
  = loop rest (Some (ValueError MsgTruncated)) cl req t duration_minutes
      (after w (failed_events cl req attempt (ValueError MsgTruncated))).
Proof.
  intros Hc Hch Hfin.
  assert (attempt_fails json_loads t duration_minutes
            (create cl (calls_made w) req) (ValueError MsgTruncated))
    as Hf by (rewrite Hc; by eapply fails_truncated).
  split; [by apply attempt_body_fails|by apply retry_loop_fail_step].
Qed.

(** C6. For a validated candidate, the attempt is rejected as too short
    exactly when the word count of the content is strictly below 70% of
    the minimum of the tier, and is accepted otherwise; for a duration of
    at most 30 minutes the minimum is 400 and the bound is 280 words. *)
Theorem length_check_is_seventy_percent
    cl req duration_minutes w resp b text :
  let t := tier_params duration_minutes in
  let r := (attempt_body create json_loads cl req t duration_minutes w).1 in
  let too_short :=
    ValueError (MsgTooShort (word_count text) (min_words t)
                  duration_minutes) in
  create cl (calls_made w) req = inr resp →
  decoded_as json_loads resp (PDict b) →
  _validate_result (PDict b) = inr () →
  b !! k_content = Some (PStr text) →
  (r = inl too_short ↔ (10 * word_count text < 7 * min_words t)%Z) ∧
  (r = inr b ↔ (7 * min_words t ≤ 10 * word_count text)%Z) ∧
  ((duration_minutes ≤ 30)%Z →
     min_words t = 400%Z ∧
     (r = inl too_short ↔ (word_count text < 280)%Z) ∧
     (r = inr b ↔ (280 ≤ word_count text)%Z)).
Proof.
  intros t r too_short Hc (ch & Hch & Hfin & Hraw & Hjs) Hv Htext.
  pose proof (min_word_count_exact duration_minutes) as Hx. fold t in Hx.
  assert ((duration_minutes ≤ 30)%Z → min_words t = 400%Z) as H30.
  { intros Hle. subst t. unfold tier_params.
    by rewrite (proj2 (Z.leb_le _ _) Hle). }
  destruct (Z.lt_ge_cases (word_count text) (min_word_count t))
    as [Hlt|Hge].
  - assert (r = inl too_short) as ->.
    { subst r. rewrite attempt_body_fails with (e := too_short); [done|].
      rewrite Hc. by eapply fails_too_short. }
    repeat split; intros; try done; try lia.
    all: try (specialize (H30 ltac:(assumption)); lia).
  - assert (r = inr b) as ->.
    { subst r.
      rewrite attempt_body_accepts
        with (resp := resp) (b := b) (text := text);
        [done|done|]. by exists ch. }
    repeat split; intros; try done; try lia.
    all: try (specialize (H30 ltac:(assumption)); lia).
Qed.

(** C7. With no client built so far and no OPENAI_API_KEY in the
    environment, [generate_lesson_content] raises the configuration error
    for every input: the only effect is the warning of the first use, no
    request is sent and no attempt is made. *)
Theorem missing_credential_fails_at_once
    topic subject grade_level duration_minutes w :
  (∀ c, _client w ≠ SlotClient c) →
  getenv (PyStr.lit "OPENAI_API_KEY") = None →
  let run := generate topic subject grade_level duration_minutes w in
  run = (inl (ValueError MsgNotConfigured),
         {| _client := SlotFalse;
            trace := trace w ++
              match _client w with
              | SlotNone => [EvWarning LogKeyNotFound]
              | _ => []
              end |}) ∧
  calls_made run.2 = calls_made w.
Proof.
  intros Hno Hkey run. subst run.
  destruct (_client w) as [| |c] eqn:Hs; [| |by destruct (Hno c)].
  - rewrite generate_without_client
      with (w0 := {| _client := SlotFalse;
                     trace := trace w ++ [EvWarning LogKeyNotFound] |})
      by by apply get_openai_client_no_key.
    split; [done|]. unfold calls_made. cbn [snd trace].
    rewrite List.filter_app, length_app. cbn. lia.
  - rewrite generate_without_client with (w0 := w)
      by by apply get_openai_client_unavailable.
    destruct w as [c tr]. cbn in Hs. subst c. cbn [snd trace].
    by rewrite app_nil_r.
Qed.

(** C8. A decoded dictionary with the five expected keys in which
    description, content or summary is not a string, or activities or
    questions is not a list or holds an element that is not a string, is
    rejected by [_validate_result], and the attempt that received it
    fails with that error. *)
Theorem ill_typed_field_is_rejected d cl req t duration_minutes w resp :
  dom d = expected_keys →
  ill_typed d →
  ∃ field,
    let e1 := ValueError (MsgMustBeString field) in
    let e2 := ValueError (MsgMustBeListOfStr field) in
    ∃ e, (e = e1 ∨ e = e2) ∧
      _validate_result (PDict d) = inl e ∧
      (create cl (calls_made w) req = inr resp →
       decoded_as json_loads resp (PDict d) →
       attempt_body create json_loads cl req t duration_minutes w
       = (inl e, after w [EvCreate cl req])).
Proof.
  intros Hdom Hill.
  assert (∀ k, k ∈ expected_keys → is_Some (d !! k)) as Hin
    by (intros k Hk; apply elem_of_dom; by rewrite Hdom).
  destruct (Hin k_description) as [vd Hd];
    [rewrite elem_of_expected_keys; tauto|].
  destruct (Hin k_content) as [vc Hc];
    [rewrite elem_of_expected_keys; tauto|].
  destruct (Hin k_summary) as [vs Hs];
    [rewrite elem_of_expected_keys; tauto|].
  destruct (Hin k_activities) as [va Ha];
    [rewrite elem_of_expected_keys; tauto|].
  destruct (Hin k_questions) as [vq Hq];
    [rewrite elem_of_expected_keys; tauto|].
  assert (is_str vd && is_str vc && is_str vs && is_list_of_str va
          && is_list_of_str vq = false) as Hb.
  { destruct Hill as [(v & Hv & Hn)|[(v & Hv & Hn)|[(v & Hv & Hn)
      |[(v & Hv & Hn)|(v & Hv & Hn)]]]];
      rewrite Hv in *; simplify_eq;
      first [apply not_a_string_false in Hn
            |apply not_a_list_of_strings_false in Hn];
      rewrite Hn; repeat (rewrite ?andb_false_r, ?andb_false_l); done. }
  assert (∃ field e,
            (e = ValueError (MsgMustBeString field) ∨
             e = ValueError (MsgMustBeListOfStr field)) ∧
            _validate_result (PDict d) = inl e) as (field & e & He & Hv).
  { unfold _validate_result. cbn [keys mbind exn_bind subscript].
    rewrite bool_decide_eq_false_2 by (intros Hne; by apply Hne).
    rewrite Hd, Hc, Hs, Ha, Hq. cbn [mbind exn_bind raise_if negb].
    destruct (is_str vd); cbn [mbind exn_bind raise_if negb];
      [|by eexists _, _; split; [left|]].
    destruct (is_str vc); cbn [mbind exn_bind raise_if negb];
      [|by eexists _, _; split; [left|]].
    destruct (is_str vs); cbn [mbind exn_bind raise_if negb];
      [|by eexists _, _; split; [left|]].
    destruct (is_list_of_str va); cbn [mbind exn_bind raise_if negb];
      [|by eexists _, _; split; [right|]].
    destruct (is_list_of_str vq); cbn [mbind exn_bind raise_if negb];
      [|by eexists _, _; split; [right|]].
    discriminate Hb. }
  exists field. cbn zeta. exists e. split; [done|]. split; [done|].
  intros Hcr Hdec. by eapply attempt_rejects_invalid.
Qed.

(** C9. When the answer passes every check that can reject it and its
    content has fewer than three non-empty paragraphs, the attempt logs
    one warning and the loop returns the bundle at once: no error is
    logged, nothing is raised and no further request is sent. *)
Theorem few_paragraphs_only_warn
    cl req t duration_minutes attempt rest last w resp b text :
  create cl (calls_made w) req = inr resp →
  passes_checks json_loads t resp b text →
  (count_paragraphs (PyStr.split_nn text) < 3)%Z →
  loop (attempt :: rest) last cl req t duration_minutes w
  = (inr b,
     after w [EvCreate cl req;
              EvWarning
                (LogFewParagraphs
                   (count_paragraphs (PyStr.split_nn text))
                   (paragraphs t))]).
Proof.
  intros Hc Hp Hlt.
  rewrite retry_loop_accept_step
    with (resp := resp) (b := b) (text := text) by done.
  unfold accepted_events. by rewrite (proj2 (Z.ltb_lt _ _) Hlt).
Qed.

(** C10. A duration of zero or less is not rejected: with a client at
    hand [generate_lesson_content] enters the retry loop with the SHORT
    parameters (400 words, activities 5-7, questions 6-10, 1600 tokens),
    and an answer that passes the checks of the SHORT tier is
    returned. *)
Theorem nonpositive_duration_uses_short
    topic subject grade_level duration_minutes w w0 cl :
  (duration_minutes ≤ 0)%Z →
  get_openai_client getenv OpenAI w = (inr (Some cl), w0) →
  let req :=
    lesson_request getenv topic subject grade_level duration_minutes in
  let run := generate topic subject grade_level duration_minutes w in
  tier_params duration_minutes = SHORT ∧
  (min_words SHORT = 400%Z ∧ activities_count SHORT = "5-7" ∧
   questions_count SHORT = "6-10" ∧ min_word_count SHORT = 280%Z) ∧
  (req_max_tokens req = 1600%Z ∧ pr_min_words (req_user req) = 400%Z ∧
   pr_activities_count (req_user req) = "5-7" ∧
   pr_questions_count (req_user req) = "6-10" ∧
   pr_lesson_type (req_user req) = "SHORT" ∧
   pr_duration_minutes (req_user req) = duration_minutes) ∧
  run = loop [1; 2; 3]%Z None cl req SHORT duration_minutes w0 ∧
  (∃ tail, trace run.2 = trace w0 ++ EvCreate cl req :: tail) ∧
  (∀ resp b text,
     create cl (calls_made w0) req = inr resp →
     passes_checks json_loads SHORT resp b text →
     run = (inr b, after w0 (accepted_events cl req SHORT text))).
Proof.
  intros Hle Hcl req run.
  assert (tier_params duration_minutes = SHORT) as Ht.
  { unfold tier_params. rewrite (proj2 (Z.leb_le _ _)); [done|lia]. }
  assert (run = loop [1; 2; 3]%Z None cl req SHORT duration_minutes w0)
    as Hrun.
  { subst run. rewrite (generate_with_client _ _ _ _ _ _ _ Hcl).
    by rewrite Ht. }
  split; [done|]. split; [done|].
  split; [subst req; unfold lesson_request; by rewrite Ht|].
  split; [done|]. split.
  - rewrite Hrun.
    destruct (attempt_outcome_cases json_loads SHORT duration_minutes
                (create cl (calls_made w0) req))
      as [[e He]|(resp & b & text & Hc & Hp)].
    + rewrite retry_loop_fail_step with (e := e) by done.
      destruct (loop [2; 3]%Z (Some e) cl req SHORT duration_minutes _)
        as [r w1] eqn:Hl.
      apply retry_loop_trace in Hl as [tail Htail].
      cbn [snd]. rewrite Htail. unfold after, failed_events.
      cbn [trace]. rewrite <- app_assoc. cbn. eauto.
    + rewrite retry_loop_accept_step
        with (resp := resp) (b := b) (text := text) by done.
      cbn [snd]. unfold after, accepted_events. cbn [trace]. eauto.
  - intros resp b text Hc Hp. rewrite Hrun.
    by apply retry_loop_accept_step with (resp := resp).
Qed.

End Claims.

(** ** The properties on the example processes *)

Lemma demo_client :
  get_openai_client Demo.getenv_key Demo.OpenAI Demo.fresh
  = (inr (Some Demo.the_client), Demo.ready).
Proof. reflexivity. Defined.

Lemma demo_decoded :
  decoded_as Demo.json_loads {| choices := [Demo.stop_ok] |}
    (PDict (Demo.bundle_of (Demo.words 600))).
Proof.
  exists Demo.stop_ok. split; [reflexivity|]. split; [discriminate|].
  split; [discriminate|]. vm_compute. reflexivity.
Defined.

Lemma demo_validated :
  _validate_result (PDict (Demo.bundle_of (Demo.words 600))) = inr ().
Proof. vm_compute. reflexivity. Defined.

Lemma demo_content :
  Demo.bundle_of (Demo.words 600) !! k_content
  = Some (PStr (Demo.words 600)).
Proof. vm_compute. reflexivity. Defined.

Lemma demo_passes (t : tier) :
  (min_word_count t ≤ 600)%Z →
  passes_checks Demo.json_loads t {| choices := [Demo.stop_ok] |}
    (Demo.bundle_of (Demo.words 600)) (Demo.words 600).
Proof.
  intros Hle. exists Demo.stop_ok. split; [reflexivity|].
  split; [discriminate|]. split; [discriminate|].
  split; [vm_compute; reflexivity|]. split; [exact demo_validated|].
  split; [exact demo_content|].
  replace (word_count (Demo.words 600)) with 600%Z
    by (vm_compute; reflexivity).
  exact Hle.
Defined.

Lemma tier_selected_by_duration_witness :
  tier_params 45 = MEDIUM ∧ min_words (tier_params 45) = 600%Z.
Proof.
  destruct (tier_selected_by_duration Demo.getenv_key 45)
    as (_ & H & _).
  destruct H as (H1 & _ & H2 & _); [lia|]. exact (conj H1 H2).
Defined.

Lemma exhausted_after_three_attempts_witness :
  let run :=
    generate_lesson_content Demo.getenv_key Demo.OpenAI
      Demo.create_truncated Demo.json_loads
      Demo.topic Demo.subject Demo.grade 45 Demo.fresh in
  run.1 = inl (Exception_
                 (MsgFailedAfterRetries (Some (ValueError MsgTruncated)))) ∧
  calls_made run.2 = 3%nat.
Proof.
  destruct (exhausted_after_three_attempts Demo.getenv_key Demo.OpenAI
              Demo.create_truncated Demo.json_loads
              Demo.topic Demo.subject Demo.grade 45 Demo.fresh Demo.ready
              Demo.the_client (ValueError MsgTruncated)
              (ValueError MsgTruncated) (ValueError MsgTruncated))
    as [H1 H2].
  - exact demo_client.
  - by eapply (fails_truncated _ _ _ _ Demo.length_ok).
  - by eapply (fails_truncated _ _ _ _ Demo.length_ok).
  - by eapply (fails_truncated _ _ _ _ Demo.length_ok).
  - cbn zeta. rewrite H2. by rewrite H1.
Defined.

Lemma wrong_key_set_is_rejected_witness :
  _validate_result (PDict Demo.with_extra_key)
  = inl (ValueError
           (MsgUnexpectedKeys (dom Demo.with_extra_key ∖ expected_keys))).
Proof.
  apply (wrong_key_set_is_rejected Demo.create_ok Demo.json_loads
           Demo.with_extra_key Demo.the_client
           (lesson_request Demo.getenv_key Demo.topic Demo.subject
              Demo.grade 45)
           MEDIUM 45 Demo.ready {| choices := [Demo.stop_ok] |}).
  apply (bool_decide_unpack _). vm_compute. exact I.
Defined.

Lemma truncated_answer_is_rejected_witness :
  (attempt_body Demo.create_truncated Demo.json_loads Demo.the_client
     (lesson_request Demo.getenv_key Demo.topic Demo.subject Demo.grade 45)
     MEDIUM 45 Demo.ready).1
  = inl (ValueError MsgTruncated).
Proof.
  destruct (truncated_answer_is_rejected Demo.create_truncated
              Demo.json_loads Demo.the_client
              (lesson_request Demo.getenv_key Demo.topic Demo.subject
                 Demo.grade 45)
              MEDIUM 45 1%Z [2; 3]%Z None Demo.ready
              {| choices := [Demo.length_ok] |} Demo.length_ok)
    as [H _]; [reflexivity..|].
  by rewrite H.
Defined.

Lemma length_check_is_seventy_percent_witness :
  (attempt_body Demo.create_ok Demo.json_loads Demo.the_client
     (lesson_request Demo.getenv_key Demo.topic Demo.subject Demo.grade 30)
     (tier_params 30) 30 Demo.ready).1
  = inr (Demo.bundle_of (Demo.words 600))
  ↔ (280 ≤ word_count (Demo.words 600))%Z.
Proof.
  destruct (length_check_is_seventy_percent Demo.create_ok Demo.json_loads
              Demo.the_client
              (lesson_request Demo.getenv_key Demo.topic Demo.subject
                 Demo.grade 30)
              30 Demo.ready {| choices := [Demo.stop_ok] |}
              (Demo.bundle_of (Demo.words 600)) (Demo.words 600)
              eq_refl demo_decoded demo_validated demo_content)
    as (_ & _ & H).
  destruct H as (_ & _ & H); [lia|]. exact H.
Defined.

Lemma missing_credential_fails_at_once_witness :
  generate_lesson_content Demo.getenv_none Demo.OpenAI Demo.create_ok
    Demo.json_loads Demo.topic Demo.subject Demo.grade 45 Demo.fresh
  = (inl (ValueError MsgNotConfigured),
     {| _client := SlotFalse; trace := [EvWarning LogKeyNotFound] |}).
Proof.
  destruct (missing_credential_fails_at_once Demo.getenv_none Demo.OpenAI
              Demo.create_ok Demo.json_loads Demo.topic Demo.subject
              Demo.grade 45 Demo.fresh)
    as [H _]; [discriminate|reflexivity|exact H].
Defined.

Lemma ill_typed_field_is_rejected_witness :
  ∃ field e,
    (e = ValueError (MsgMustBeString field) ∨
     e = ValueError (MsgMustBeListOfStr field)) ∧
    _validate_result (PDict Demo.with_number_content) = inl e.
Proof.
  destruct (ill_typed_field_is_rejected Demo.create_ok Demo.json_loads
              Demo.with_number_content Demo.the_client
              (lesson_request Demo.getenv_key Demo.topic Demo.subject
                 Demo.grade 45)
              MEDIUM 45 Demo.ready {| choices := [Demo.stop_ok] |})
    as (field & e & He & Hv & _).
  - vm_compute. reflexivity.
  - right. left. exists (PInt 7). split; [vm_compute; reflexivity|].
    intros s. discriminate.
  - exists field, e. exact (conj He Hv).
Defined.

Lemma few_paragraphs_only_warn_witness :
  generate_lesson_content Demo.getenv_key Demo.OpenAI Demo.create_ok
    Demo.json_loads Demo.topic Demo.subject Demo.grade 45 Demo.fresh
  = (inr (Demo.bundle_of (Demo.words 600)),
     {| _client := SlotClient Demo.the_client;
        trace :=
          [EvCreate Demo.the_client
             (lesson_request Demo.getenv_key Demo.topic Demo.subject
                Demo.grade 45);
           EvWarning (LogFewParagraphs 1 "7-9")] |}).
Proof.
  rewrite (generate_with_client _ _ _ _ _ _ _ _ _ _ _ demo_client).
  rewrite (few_paragraphs_only_warn Demo.create_ok Demo.json_loads
             Demo.the_client _ (tier_params 45) 45 1%Z [2; 3]%Z None
             Demo.ready {| choices := [Demo.stop_ok] |}
             (Demo.bundle_of (Demo.words 600)) (Demo.words 600)).
  - vm_compute. reflexivity.
  - reflexivity.
  - apply demo_passes. apply Z.leb_le. vm_compute. reflexivity.
  - apply Z.ltb_lt. vm_compute. reflexivity.
Defined.

Lemma nonpositive_duration_uses_short_witness :
  tier_params 0 = SHORT ∧
  generate_lesson_content Demo.getenv_key Demo.OpenAI Demo.create_ok
    Demo.json_loads Demo.topic Demo.subject Demo.grade 0 Demo.fresh
  = (inr (Demo.bundle_of (Demo.words 600)),
     after Demo.ready
       (accepted_events Demo.the_client
          (lesson_request Demo.getenv_key Demo.topic Demo.subject
             Demo.grade 0)
          SHORT (Demo.words 600))).
Proof.
  destruct (nonpositive_duration_uses_short Demo.getenv_key Demo.OpenAI
              Demo.create_ok Demo.json_loads Demo.topic Demo.subject
              Demo.grade 0 Demo.fresh Demo.ready Demo.the_client)
    as (Ht & _ & _ & _ & _ & H); [lia|exact demo_client|].
  split; [exact Ht|].
  apply (H {| choices := [Demo.stop_ok] |}); [reflexivity|].
  apply demo_passes. apply Z.leb_le. vm_compute. reflexivity.
Defined.

(** ** Further properties of the generator *)

Lemma is_list_of_str_fmap l : is_list_of_str (PList (PStr <$> l)) = true.
Proof. cbn. induction l as [|s l IH]; [done|]. cbn. exact IH. Qed.

Lemma failures_cons cl req a attempts e errors :
  failures cl req (a :: attempts) (e :: errors)
  = failed_events cl req a e ++ failures cl req attempts errors.
Proof. reflexivity. Qed.

Lemma last_error_after_cons last e errors :
  last_error_after last (e :: errors) = last_error_after (Some e) errors.
Proof.
  unfold last_error_after. destruct errors as [|e' errors]; [done|].
  cbn [list.last]. destruct (list.last (e' :: errors)) eqn:E; [done|].
  by apply last_None in E.
Qed.

Lemma all_fail_cons json_loads create cl req t duration_minutes n e errors :
  all_fail json_loads create cl req t duration_minutes n (e :: errors) →
  attempt_fails json_loads t duration_minutes (create cl n req) e ∧
  all_fail json_loads create cl req t duration_minutes (S n) errors.
Proof.
  intros H. split.
  - specialize (H 0%nat e eq_refl). by rewrite Nat.add_0_r in H.
  - intros i e' Hi. specialize (H (S i) e' Hi).
    by rewrite Nat.add_succ_r in H.
Qed.

Lemma all_fail_cons_intro json_loads create cl req t duration_minutes n e
    errors :
  attempt_fails json_loads t duration_minutes (create cl n req) e →
  all_fail json_loads create cl req t duration_minutes (S n) errors →
  all_fail json_loads create cl req t duration_minutes n (e :: errors).
Proof.
  intros He Hes [|i] e' Hi.
  - injection Hi as <-. by rewrite Nat.add_0_r.
  - rewrite Nat.add_succ_r. by apply Hes.
Qed.

Section LoopRuns.

Variable create : client → nat → request → exn + response.
Variable json_loads : list N → exn + pyvalue.
Variables (cl : client) (req : request) (t : tier) (duration_minutes : Z).

Local Abbreviation loop := (retry_loop create json_loads).
Local Abbreviation fail_from :=
  (all_fail json_loads create cl req t duration_minutes).

Lemma retry_loop_all_fail attempts : ∀ errors last w,
  length errors = length attempts →
  fail_from (calls_made w) errors →
  loop attempts last cl req t duration_minutes w
  = (inl (Exception_
            (MsgFailedAfterRetries (last_error_after last errors))),
     after w (failures cl req attempts errors)).
Proof.
  induction attempts as [|a rest IH]; intros [|e errors] last w Hlen Hall;
    try discriminate Hlen.
  - cbn. unfold raise, after. destruct w. cbn. by rewrite app_nil_r.
  - apply all_fail_cons in Hall as [He Hall].
    rewrite retry_loop_fail_step with (e := e) by exact He.
    rewrite (IH errors); [|by injection Hlen|by rewrite calls_made_failed].
    by rewrite after_after, last_error_after_cons, failures_cons.
Qed.

Lemma retry_loop_first_pass pre : ∀ errors a rest last w resp b text,
  length errors = length pre →
  fail_from (calls_made w) errors →
  create cl (calls_made w + length pre)%nat req = inr resp →
  passes_checks json_loads t resp b text →
  loop (pre ++ a :: rest) last cl req t duration_minutes w
  = (inr b,
     after w (failures cl req pre errors ++ accepted_events cl req t text)).
Proof.
  induction pre as [|p pre IH];
    intros [|e errors] a rest last w resp b text Hlen Hall Hc Hp;
    try discriminate Hlen.
  - cbn [app length] in *. rewrite Nat.add_0_r in Hc.
    by rewrite retry_loop_accept_step
      with (resp := resp) (b := b) (text := text).
  - apply all_fail_cons in Hall as [He Hall]. cbn [app].
    rewrite retry_loop_fail_step with (e := e) by exact He.
    rewrite (IH errors a rest _ _ resp b text);
      [|by injection Hlen|by rewrite calls_made_failed
       |rewrite calls_made_failed; cbn [length] in Hc;
        by rewrite Nat.add_succ_r in Hc|done].
    by rewrite after_after, failures_cons, app_assoc.
Qed.

(** What a run of the loop has done, read off its result. *)
Lemma retry_loop_inv attempts : ∀ last w r w',
  loop attempts last cl req t duration_minutes w = (r, w') →
  (∃ errors,
     length errors = length attempts ∧
     fail_from (calls_made w) errors ∧
     r = inl (Exception_
                (MsgFailedAfterRetries (last_error_after last errors))) ∧
     w' = after w (failures cl req attempts errors)) ∨
  (∃ pre a rest errors resp b text,
     attempts = pre ++ a :: rest ∧
     length errors = length pre ∧
     fail_from (calls_made w) errors ∧
     create cl (calls_made w + length pre)%nat req = inr resp ∧
     passes_checks json_loads t resp b text ∧
     r = inr b ∧
     w' = after w (failures cl req pre errors
                   ++ accepted_events cl req t text)).
Proof.
  induction attempts as [|a rest IH]; intros last w r w' H.
  - left. exists []. split; [done|]. split; [by intros i e Hi|].
    rewrite (retry_loop_all_fail [] [] last w) in H; [|done|by intros i e Hi].
    by injection H as <- <-.
  - destruct (attempt_outcome_cases json_loads t duration_minutes
                (create cl (calls_made w) req))
      as [[e He]|(resp & b & text & Hc & Hp)].
    + rewrite retry_loop_fail_step with (e := e) in H by exact He.
      apply IH in H
        as [(errors & Hlen & Hall & -> & ->)
           |(pre & a' & rest' & errors & resp & b & text & -> & Hlen & Hall
             & Hc & Hp & -> & ->)];
        rewrite calls_made_failed in *.
      * left. exists (e :: errors). split; [by cbn; rewrite Hlen|].
        split; [by apply all_fail_cons_intro|].
        by rewrite after_after, last_error_after_cons, failures_cons.
      * right. exists (a :: pre), a', rest', (e :: errors), resp, b, text.
        split; [done|]. split; [by cbn; rewrite Hlen|].
        split; [by apply all_fail_cons_intro|].
        split; [by cbn [length]; rewrite Nat.add_succ_r|].
        split; [done|]. split; [done|].
        by rewrite after_after, failures_cons, app_assoc.
    + right. exists [], a, rest, [], resp, b, text.
      rewrite retry_loop_accept_step
        with (resp := resp) (b := b) (text := text) in H by done.
      injection H as <- <-.
      split; [done|]. split; [done|]. split; [by intros i e Hi|].
      split; [by cbn; rewrite Nat.add_0_r|]. done.
Qed.

End LoopRuns.

Lemma lstrip_spaces s : forallb PyStr.isspace s = true → PyStr.lstrip s = [].
Proof.
  induction s as [|c s IH]; [done|]. cbn.
  intros [Hc Hs]%andb_true_iff. rewrite Hc. by apply IH.
Qed.

Lemma strip_spaces s : forallb PyStr.isspace s = true → PyStr.strip s = [].
Proof.
  intros H. unfold PyStr.strip, PyStr.rstrip.
  rewrite (lstrip_spaces s H). reflexivity.
Qed.

Lemma tier_params_le_short d d' :
  (d ≤ d')%Z → tier_params d' = SHORT → tier_params d = SHORT.
Proof. unfold tier_params. repeat case_match; try done; lia. Qed.

Section Extras.

Variable getenv : list N → option (list N).
Variable OpenAI : list N → exn + client.
Variable create : client → nat → request → exn + response.
Variable json_loads : list N → exn + pyvalue.

Local Abbreviation generate :=
  (generate_lesson_content getenv OpenAI create json_loads).
Local Abbreviation loop := (retry_loop create json_loads).

(** After [get_openai_client] the global holds the client it returned, or
    [False] when it returned [None]. *)
Lemma get_openai_client_slot w r w1 :
  get_openai_client getenv OpenAI w = (r, w1) →
  (∃ c, r = inr (Some c) ∧ _client w1 = SlotClient c) ∨
  (r = inr None ∧ _client w1 = SlotFalse).
Proof.
  unfold get_openai_client, mbind, M_bind, get_client, key_not_found.
  cbn beta iota.
  destruct (_client w) eqn:Hs; cbn;
    [destruct (getenv _) as [key|]; [destruct (PyStr.truthy key);
      [destruct (OpenAI key)|]|]|..];
    cbn; intros [= <- <-]; cbn; rewrite ?Hs; eauto.
Qed.

(** X1. [_validate_result] returns normally exactly on the dictionaries
    that are content bundles. *)
Theorem validate_accepts_exactly_bundles v :
  _validate_result v = inr () ↔ ∃ d, v = PDict d ∧ content_bundle d.
Proof.
  split.
  - intros H. destruct (validate_ok_inv _ H) as (d & _ & _ & _ & _ & _ & -> & _).
    exists d. split; [done|]. by apply validated_is_bundle.
  - intros (d & -> & Hdom & [sd Hd] & [sc Hc] & [ss Hs] & [la Ha] & [lq Hq]).
    eapply validate_ok_intro; try eassumption; try reflexivity;
      apply is_list_of_str_fmap.
Qed.

(** X2. A decoded value that is not a dictionary (a list, a string, a
    number, a boolean or null) makes [_validate_result] raise
    [AttributeError] on [keys], and the attempt that received it fails with
    that error. *)
Theorem non_dict_is_rejected v cl req t duration_minutes w resp :
  (∀ d, v ≠ PDict d) →
  let e := AttributeError (type_name v) "keys" in
  _validate_result v = inl e ∧
  (create cl (calls_made w) req = inr resp →
   decoded_as json_loads resp v →
   attempt_body create json_loads cl req t duration_minutes w
   = (inl e, after w [EvCreate cl req])).
Proof.
  intros Hv e.
  assert (_validate_result v = inl e) as H.
  { destruct v; try reflexivity. by destruct (Hv d). }
  split; [done|]. intros Hc Hd. by eapply attempt_rejects_invalid.
Qed.

(** X3. When keys are only missing (the key set is a proper subset of the
    expected one), the error of [_validate_result] names no key: its list
    of unexpected keys is empty. *)
Theorem missing_keys_are_not_named (d : gmap (list N) pyvalue) :
  dom d ⊂ expected_keys →
  _validate_result (PDict d) = inl (ValueError (MsgUnexpectedKeys ∅)).
Proof.
  intros Hsub. unfold _validate_result. cbn [keys mbind exn_bind].
  rewrite bool_decide_eq_true_2.
  - cbn. do 3 f_equal. apply set_eq. intros k.
    rewrite elem_of_difference. split; [|set_solver].
    intros [Hk Hnk]. destruct Hnk. destruct Hsub as [Hsub _].
    by apply Hsub.
  - intros Heq. rewrite Heq in Hsub. by destruct Hsub as [_ []].
Qed.

(** X4. The client is cached: after one call of [get_openai_client], any
    later call gives the same result and changes nothing, whatever the
    environment and the constructor have become. *)
Theorem client_is_cached getenv' OpenAI' w r w1 :
  get_openai_client getenv OpenAI w = (r, w1) →
  get_openai_client getenv' OpenAI' w1 = (r, w1).
Proof.
  intros H. apply get_openai_client_slot in H as [(c & -> & Hs)|[-> Hs]].
  - by apply get_openai_client_ready.
  - by apply get_openai_client_unavailable.
Qed.

(** X5. A configuration failure is permanent: once
    [generate_lesson_content] has raised the configuration error, every
    later call raises it again, without any effect, even with a key in the
    environment. *)
Theorem configuration_failure_is_permanent
    getenv' OpenAI' create' json_loads'
    topic subject grade_level duration_minutes
    topic' subject' grade_level' duration_minutes' w w1 :
  generate topic subject grade_level duration_minutes w
  = (inl (ValueError MsgNotConfigured), w1) →
  generate_lesson_content getenv' OpenAI' create' json_loads'
    topic' subject' grade_level' duration_minutes' w1
  = (inl (ValueError MsgNotConfigured), w1).
Proof.
  intros H.
  destruct (get_openai_client getenv OpenAI w) as [r w0] eqn:Hcl.
  destruct (get_openai_client_slot _ _ _ Hcl) as [(c & -> & Hs)|[-> Hs]].
  - rewrite (generate_with_client _ _ _ _ _ _ _ _ _ _ _ Hcl) in H.
    apply retry_loop_err_inv in H as (last' & [=] & _).
  - rewrite (generate_without_client _ _ _ _ _ _ _ _ _ _ Hcl) in H.
    injection H as <-.
    apply generate_without_client.
    by apply get_openai_client_unavailable.
Qed.

(** X6. When the constructor of the client raises, the error is logged,
    the client is marked unavailable and [generate_lesson_content] raises
    the configuration error without sending a request. *)
Theorem constructor_failure_is_configuration_error
    topic subject grade_level duration_minutes w key e :
  _client w = SlotNone →
  getenv (PyStr.lit "OPENAI_API_KEY") = Some key →
  key ≠ [] →
  OpenAI key = inl e →
  generate topic subject grade_level duration_minutes w
  = (inl (ValueError MsgNotConfigured),
     {| _client := SlotFalse;
        trace := trace w ++ [EvError (LogClientInitFailed e)] |}).
Proof.
  intros Hs Hk Hne He. apply generate_without_client.
  unfold get_openai_client, mbind, M_bind, get_client. cbn beta iota.
  rewrite Hs, Hk. destruct key; [done|]. cbn [PyStr.truthy].
  by rewrite He.
Qed.

(** X7. An empty OPENAI_API_KEY counts as a missing one: the warning is
    logged, the constructor is not consulted and the configuration error
    is raised. *)
Theorem empty_key_counts_as_missing
    topic subject grade_level duration_minutes w :
  _client w = SlotNone →
  getenv (PyStr.lit "OPENAI_API_KEY") = Some [] →
  generate topic subject grade_level duration_minutes w
  = (inl (ValueError MsgNotConfigured),
     {| _client := SlotFalse;
        trace := trace w ++ [EvWarning LogKeyNotFound] |}).
Proof.
  intros Hs Hk. apply generate_without_client.
  unfold get_openai_client, mbind, M_bind, get_client. cbn beta iota.
  by rewrite Hs, Hk.
Qed.

End Extras.

Lemma calls_made_failures w cl req attempts errors :
  length errors = length attempts →
  calls_made (after w (failures cl req attempts errors))
  = (calls_made w + length attempts)%nat.
Proof.
  revert errors w. induction attempts as [|a rest IH];
    intros [|e errors] w Hlen; try discriminate Hlen.
  - rewrite calls_made_after. cbn. lia.
  - rewrite failures_cons, <- after_after, IH by by injection Hlen.
    rewrite calls_made_failed. cbn. lia.
Qed.

Lemma calls_made_accepted w cl req t text :
  calls_made (after w (accepted_events cl req t text)) = S (calls_made w).
Proof.
  rewrite calls_made_after. unfold accepted_events.
  destruct (_ <? 3)%Z; cbn; lia.
Qed.

Section Runs.

Variable getenv : list N → option (list N).
Variable OpenAI : list N → exn + client.
Variable create : client → nat → request → exn + response.
Variable json_loads : list N → exn + pyvalue.

Local Abbreviation generate :=
  (generate_lesson_content getenv OpenAI create json_loads).
Local Abbreviation loop := (retry_loop create json_loads).

Lemma get_openai_client_trace w r w1 :
  get_openai_client getenv OpenAI w = (r, w1) →
  (∃ evs, trace w1 = trace w ++ evs) ∧
  (∀ c, _client w = SlotClient c → w1 = w).
Proof.
  intros H. split.
  - revert H.
    unfold get_openai_client, mbind, M_bind, get_client, key_not_found.
    cbn beta iota.
    destruct (_client w) eqn:Hs; cbn;
      [destruct (getenv _) as [key|]; [destruct (PyStr.truthy key);
        [destruct (OpenAI key)|]|]|..];
      cbn; intros [= <- <-]; cbn; eauto; exists []; by rewrite app_nil_r.
  - intros c Hc. rewrite (get_openai_client_ready _ _ _ _ Hc) in H.
    by injection H as _ <-.
Qed.

(** X8. Whatever happens, one call of [generate_lesson_content] only adds
    to the trace, sends at most three requests, at least one when it
    returns a bundle, and leaves a client that was already built in
    place. *)
Theorem generate_sends_at_most_three
    topic subject grade_level duration_minutes w :
  let run := generate topic subject grade_level duration_minutes w in
  (∃ evs, trace run.2 = trace w ++ evs) ∧
  (calls_made w ≤ calls_made run.2 ≤ calls_made w + 3)%nat ∧
  (∀ b, run.1 = inr b → (calls_made w < calls_made run.2)%nat) ∧
  (∀ c, _client w = SlotClient c → _client run.2 = SlotClient c).
Proof.
  intros run. subst run.
  destruct (get_openai_client getenv OpenAI w) as [r0 w0] eqn:Hcl.
  destruct (get_openai_client_trace _ _ _ Hcl) as [[evs0 Hevs0] Hkeep].
  destruct (get_openai_client_total getenv OpenAI w)
    as (o & w0' & Hcl' & Hcalls).
  rewrite Hcl in Hcl'. injection Hcl' as -> <-.
  destruct o as [cl|].
  - rewrite (generate_with_client _ _ _ _ _ _ _ _ _ _ _ Hcl).
    destruct (loop _ _ _ _ _ _ _) as [r w'] eqn:Hrun. cbn [fst snd].
    destruct (retry_loop_trace _ _ _ _ _ _ _ _ _ _ _ Hrun) as [tail Htail].
    split; [exists (evs0 ++ tail); by rewrite Htail, Hevs0, app_assoc|].
    apply retry_loop_inv in Hrun
      as [(errors & Hlen & _ & -> & ->)
         |(pre & a & rest & errors & resp & b & text & Hsplit & Hlen & _ & _
           & _ & -> & ->)].
    + rewrite calls_made_failures by done. cbn [length].
      split; [lia|]. split; [by intros b [=]|].
      intros c Hc. unfold after. cbn [_client].
      by rewrite (Hkeep c Hc).
    + rewrite <- after_after, calls_made_accepted, calls_made_failures
        by done.
      assert (length pre < 3)%nat.
      { apply (f_equal length) in Hsplit. rewrite length_app in Hsplit.
        cbn in Hsplit. lia. }
      split; [lia|]. split; [intros; lia|].
      intros c Hc. unfold after. cbn [_client].
      by rewrite (Hkeep c Hc).
  - rewrite (generate_without_client _ _ _ _ _ _ _ _ _ _ Hcl).
    cbn [fst snd]. split; [by exists evs0|]. split; [lia|].
    split; [by intros b [=]|].
    intros c Hc. rewrite (Hkeep c Hc). done.
Qed.

(** X9. [generate_lesson_content] raises only two kinds of error: the
    configuration error, with no request sent, or the wrapper of the error
    of the third attempt, after three requests whose answers all failed
    their attempt. No error of an attempt leaves the function as it is. *)
Theorem raised_errors_are_two_kinds
    topic subject grade_level duration_minutes w e :
  let run := generate topic subject grade_level duration_minutes w in
  let req :=
    lesson_request getenv topic subject grade_level duration_minutes in
  run.1 = inl e →
  (e = ValueError MsgNotConfigured ∧ calls_made run.2 = calls_made w) ∨
  (∃ cl e1 e2 e3,
     all_fail json_loads create cl req (tier_params duration_minutes)
       duration_minutes (calls_made w) [e1; e2; e3] ∧
     e = Exception_ (MsgFailedAfterRetries (Some e3)) ∧
     calls_made run.2 = (calls_made w + 3)%nat).
Proof.
  intros run req He. subst run.
  destruct (get_openai_client_total getenv OpenAI w)
    as ([cl|] & w0 & Hcl & Hcalls).
  - right.
    rewrite (generate_with_client _ _ _ _ _ _ _ _ _ _ _ Hcl) in He |- *.
    fold req in He |- *.
    destruct (loop _ _ _ _ _ _ _) as [r w'] eqn:Hrun. cbn [fst snd] in *.
    subst r.
    apply retry_loop_inv in Hrun
      as [(errors & Hlen & Hall & [= ->] & ->)
         |(pre & a & rest & errors & resp & b & text & _ & _ & _ & _ & _
           & [=] & _)].
    destruct errors as [|e1 [|e2 [|e3 [|]]]]; try discriminate Hlen.
    exists cl, e1, e2, e3. rewrite <- Hcalls.
    split; [done|]. split; [done|].
    by rewrite calls_made_failures.
  - left.
    rewrite (generate_without_client _ _ _ _ _ _ _ _ _ _ Hcl) in He |- *.
    cbn [fst snd] in *. by injection He as <-.
Qed.

(** X10. The loop stops at the first answer that passes: when the answers
    before it failed their attempts, [generate_lesson_content] returns the
    dictionary decoded from it, after the events of the failures and of
    the accepted attempt, and the attempts that are left are not made. *)
Theorem first_passing_answer_is_returned
    topic subject grade_level duration_minutes w w0 cl
    pre a rest errors resp b text :
  let req :=
    lesson_request getenv topic subject grade_level duration_minutes in
  let t := tier_params duration_minutes in
  get_openai_client getenv OpenAI w = (inr (Some cl), w0) →
  [1; 2; 3]%Z = pre ++ a :: rest →
  length errors = length pre →
  all_fail json_loads create cl req t duration_minutes (calls_made w0)
    errors →
  create cl (calls_made w0 + length pre)%nat req = inr resp →
  passes_checks json_loads t resp b text →
  generate topic subject grade_level duration_minutes w
  = (inr b,
     after w0 (failures cl req pre errors ++ accepted_events cl req t text)).
Proof.
  intros req t Hcl Hsplit Hlen Hall Hc Hp.
  rewrite (generate_with_client _ _ _ _ _ _ _ _ _ _ _ Hcl), Hsplit.
  by apply retry_loop_first_pass with (resp := resp).
Qed.

(** X11. A bundle that [generate_lesson_content] returns is the
    dictionary that [json.loads] gave for the answer to one of the at most
    three requests of this call, and that answer passed every check. *)
Theorem returned_bundle_was_decoded
    topic subject grade_level duration_minutes w w' b :
  let req :=
    lesson_request getenv topic subject grade_level duration_minutes in
  generate topic subject grade_level duration_minutes w = (inr b, w') →
  ∃ cl i resp text,
    (i < 3)%nat ∧
    create cl (calls_made w + i)%nat req = inr resp ∧
    passes_checks json_loads (tier_params duration_minutes) resp b text.
Proof.
  intros req Hrun.
  destruct (get_openai_client_total getenv OpenAI w)
    as ([cl|] & w0 & Hcl & Hcalls).
  - rewrite (generate_with_client _ _ _ _ _ _ _ _ _ _ _ Hcl) in Hrun.
    apply retry_loop_inv in Hrun
      as [(errors & _ & _ & [=] & _)
         |(pre & a & rest & errors & resp & b' & text & Hsplit & _ & _ & Hc
           & Hp & [= <-] & _)].
    exists cl, (length pre), resp, text. rewrite <- Hcalls.
    split; [|done].
    apply (f_equal length) in Hsplit. rewrite length_app in Hsplit.
    cbn in Hsplit. lia.
  - rewrite (generate_without_client _ _ _ _ _ _ _ _ _ _ Hcl) in Hrun.
    discriminate Hrun.
Qed.

(** X12. An answer that is not cut off and whose text is absent, empty or
    made of whitespace only makes the attempt fail with the empty-response
    error, before anything is decoded. *)
Theorem blank_answer_is_rejected
    cl req t duration_minutes w resp ch :
  create cl (calls_made w) req = inr resp →
  first_choice resp = inr ch →
  finish_reason ch ≠ Some (PyStr.lit "length") →
  (content ch = None ∨
   ∃ s, content ch = Some s ∧ forallb PyStr.isspace s = true) →
  attempt_body create json_loads cl req t duration_minutes w
  = (inl (ValueError MsgEmptyResponse), after w [EvCreate cl req]).
Proof.
  intros Hc Hch Hfin Hblank. apply attempt_body_fails. rewrite Hc.
  eapply fails_empty; [done..|]. unfold raw_text.
  destruct Hblank as [->|(s & -> & Hs)]; [done|]. by apply strip_spaces.
Qed.

(** X13. An answer with an empty list of choices makes the attempt fail
    with [IndexError]; the error is caught like any other and the loop
    goes on with the attempts that are left. *)
Theorem answer_without_choices_is_rejected
    cl req t duration_minutes attempt rest last w resp :
  create cl (calls_made w) req = inr resp →
  choices resp = [] →
  loop (attempt :: rest) last cl req t duration_minutes w
  = loop rest (Some IndexError) cl req t duration_minutes
      (after w (failed_events cl req attempt IndexError)).
Proof.
  intros Hc Hch. apply retry_loop_fail_step. rewrite Hc.
  by apply fails_no_choice.
Qed.

(** X14. The tiers grow with the duration: a longer lesson never gets a
    smaller minimum of words, a smaller bound of the length check or a
    smaller token budget. *)
Theorem tiers_grow_with_duration (d d' : Z) :
  (d ≤ d')%Z →
  (min_words (tier_params d) ≤ min_words (tier_params d'))%Z ∧
  (min_word_count (tier_params d) ≤ min_word_count (tier_params d'))%Z ∧
  (max_tokens (tier_params d) ≤ max_tokens (tier_params d'))%Z.
Proof.
  intros Hle. unfold tier_params.
  repeat case_match; try lia; repeat split; by vm_compute.
Qed.

(** X15. Whatever the duration, the content of a returned bundle has at
    least 280 words. *)
Theorem returned_content_has_280_words
    topic subject grade_level duration_minutes w w' b :
  generate topic subject grade_level duration_minutes w = (inr b, w') →
  ∃ text, b !! k_content = Some (PStr text) ∧ (280 ≤ word_count text)%Z.
Proof.
  intros Hrun.
  destruct (get_openai_client_total getenv OpenAI w)
    as ([cl|] & w0 & Hcl & _).
  - rewrite (generate_with_client _ _ _ _ _ _ _ _ _ _ _ Hcl) in Hrun.
    apply retry_loop_ok_inv in Hrun
      as (resp & text & ch & _ & _ & _ & _ & _ & Htext & Hwc).
    exists text. split; [done|].
    assert (280 ≤ min_word_count (tier_params duration_minutes))%Z;
      [|lia].
    destruct (tier_params_cases duration_minutes) as [-> | [-> | ->]];
      by vm_compute.
  - rewrite (generate_without_client _ _ _ _ _ _ _ _ _ _ Hcl) in Hrun.
    discriminate Hrun.
Qed.

(** X16. The lists of a bundle that [generate_lesson_content] returns
    pass the checks of the lesson serializer unchanged. *)
Theorem generated_lists_pass_the_serializer
    topic subject grade_level duration_minutes w w' b :
  generate topic subject grade_level duration_minutes w = (inr b, w') →
  ∃ a q,
    b !! k_activities = Some a ∧ b !! k_questions = Some q ∧
    Serializers.validate_activities a = inr a ∧
    Serializers.validate_questions q = inr q.
Proof.
  intros Hrun.
  destruct (get_openai_client_total getenv OpenAI w)
    as ([cl|] & w0 & Hcl & _).
  - rewrite (generate_with_client _ _ _ _ _ _ _ _ _ _ _ Hcl) in Hrun.
    apply retry_loop_ok_inv in Hrun
      as (resp & text & ch & _ & _ & _ & _ & Hv & _).
    apply validated_is_bundle in Hv
      as (_ & _ & _ & _ & [la Ha] & [lq Hq]).
    by exists (PList (PStr <$> la)), (PList (PStr <$> lq)).
  - rewrite (generate_without_client _ _ _ _ _ _ _ _ _ _ Hcl) in Hrun.
    discriminate Hrun.
Qed.

End Runs.

(** ** Properties of the lesson permissions *)

Section PermissionProperties.

Import Permissions.

Lemma is_owner_true request obj :
  is_owner request obj = true ↔ request_user request = User (lesson_user obj).
Proof.
  unfold is_owner. rewrite bool_decide_eq_true. split; congruence.
Qed.

(** X17. Someone who is not the owner of a lesson, the anonymous user
    included, is refused every request whose method is not GET, HEAD or
    OPTIONS by both permission classes, also when the lesson is public. *)
Theorem non_owner_never_writes request obj :
  request_user request ≠ User (lesson_user obj) →
  method request ∉ SAFE_METHODS →
  IsLessonOwner.has_object_permission request obj = false ∧
  IsLessonOwnerOrReadOnly.has_object_permission request obj = false.
Proof.
  intros Hne Hm.
  unfold IsLessonOwner.has_object_permission,
    IsLessonOwnerOrReadOnly.has_object_permission.
  rewrite bool_decide_eq_false_2 by done.
  assert (is_owner request obj = false) as ->; [|done].
  apply not_true_iff_false. by rewrite is_owner_true.
Qed.

(** X18. A lesson that is not public is open to its owner only: whatever
    the method, both permission classes grant the request exactly when the
    user of the request is the owner. *)
Theorem private_lesson_is_for_its_owner request obj :
  is_public obj = false →
  (IsLessonOwner.has_object_permission request obj = true
   ↔ request_user request = User (lesson_user obj)) ∧
  (IsLessonOwnerOrReadOnly.has_object_permission request obj = true
   ↔ request_user request = User (lesson_user obj)).
Proof.
  intros Hp.
  unfold IsLessonOwner.has_object_permission,
    IsLessonOwnerOrReadOnly.has_object_permission.
  rewrite Hp. cbn [orb].
  destruct (bool_decide (method request ∈ SAFE_METHODS));
    split; apply is_owner_true.
Qed.

(** X19. A public lesson can be read (GET, HEAD, OPTIONS) by anyone, the
    anonymous user included, and its owner passes both permission classes
    with every method. *)
Theorem public_read_and_owner_access request obj :
  (is_public obj = true ∧ method request ∈ SAFE_METHODS) ∨
  request_user request = User (lesson_user obj) →
  IsLessonOwner.has_object_permission request obj = true ∧
  IsLessonOwnerOrReadOnly.has_object_permission request obj = true.
Proof.
  unfold IsLessonOwner.has_object_permission,
    IsLessonOwnerOrReadOnly.has_object_permission.
  intros [[Hp Hm]|Ho].
  - rewrite bool_decide_eq_true_2 by done. by rewrite Hp.
  - apply is_owner_true in Ho. rewrite Ho.
    destruct (bool_decide _); by rewrite ?orb_true_r.
Qed.

End PermissionProperties.

(** ** The schema and the validation *)

Section SchemaProperties.

Import JsonSchema.

Lemma conforms_string n x : conforms (S n) string_type x = is_str x.
Proof. reflexivity. Qed.

Lemma conforms_array n x :
  conforms (S (S n)) array_of_string_type x = is_list_of_str x.
Proof. destruct x; reflexivity. Qed.

Lemma lesson_schema_type :
  lesson_schema_fields !! PyStr.lit "type" = Some (PStr (PyStr.lit "object")).
Proof. vm_compute. reflexivity. Qed.

Lemma lesson_schema_required :
  required_of lesson_schema_fields
  = [PStr k_description; PStr k_content; PStr k_activities;
     PStr k_questions; PStr k_summary].
Proof. vm_compute. reflexivity. Qed.

Lemma lesson_schema_properties :
  map_to_list (properties_of lesson_schema_fields)
  = [(k_summary, string_type); (k_content, string_type);
     (k_questions, array_of_string_type);
     (k_activities, array_of_string_type);
     (k_description, string_type)].
Proof. vm_compute. reflexivity. Qed.

Lemma lesson_schema_closed :
  closed lesson_schema_fields = true ∧
  dom (properties_of lesson_schema_fields) = expected_keys.
Proof. (split; vm_compute; reflexivity). Qed.

Lemma conforms_lesson d :
  conforms 3 _lesson_schema (PDict d)
  = forallb (has_key d)
      [PStr k_description; PStr k_content; PStr k_activities;
       PStr k_questions; PStr k_summary]
    && forallb (field_ok d)
         [(k_summary, string_type); (k_content, string_type);
          (k_questions, array_of_string_type);
          (k_activities, array_of_string_type);
          (k_description, string_type)]
    && bool_decide (dom d ⊆ expected_keys).
Proof.
  change _lesson_schema with (PDict lesson_schema_fields).
  cbn [conforms]. rewrite lesson_schema_type.
  destruct (decide (PyStr.lit "object" = PyStr.lit "string")) as [E|_];
    [by vm_compute in E|].
  destruct (decide (PyStr.lit "object" = PyStr.lit "array")) as [E|_];
    [by vm_compute in E|].
  destruct (decide (PyStr.lit "object" = PyStr.lit "object")) as [_|E];
    [|by destruct E].
  rewrite lesson_schema_required, lesson_schema_properties.
  destruct lesson_schema_closed as [-> ->]. reflexivity.
Qed.

Lemma field_ok_lookup d k s x :
  d !! k = Some x → field_ok d (k, s) = conforms 2 s x.
Proof. unfold field_ok. cbn [fst snd]. by intros ->. Qed.

(** X20. The schema sent to the provider and the validation of the answer
    describe the same values: a decoded value is an instance of
    [_lesson_schema] exactly when [_validate_result] returns normally on
    it. *)
Theorem schema_and_validation_agree v :
  conforms 3 _lesson_schema v = true ↔ _validate_result v = inr ().
Proof.
  destruct v as [| | | | | |d]; try (split; discriminate).
  rewrite conforms_lesson. cbn [forallb has_key].
  rewrite !andb_true_iff, !bool_decide_eq_true. split.
  - intros [[H1 H2] Hsub].
    destruct H1 as (Hd & Hc & Ha & Hq & Hs & _).
    destruct H2 as (Fs & Fc & Fq & Fa & Fd & _).
    apply elem_of_dom in Hd as [vd Hd], Hc as [vc Hc], Ha as [va Ha],
      Hq as [vq Hq], Hs as [vs Hs].
    rewrite (field_ok_lookup _ _ _ _ Hs), conforms_string in Fs.
    rewrite (field_ok_lookup _ _ _ _ Hc), conforms_string in Fc.
    rewrite (field_ok_lookup _ _ _ _ Hd), conforms_string in Fd.
    rewrite (field_ok_lookup _ _ _ _ Hq), conforms_array in Fq.
    rewrite (field_ok_lookup _ _ _ _ Ha), conforms_array in Fa.
    eapply validate_ok_intro; try eassumption.
    apply set_eq. intros k. split; [by apply Hsub|].
    rewrite elem_of_expected_keys, elem_of_dom.
    intros [-> | [-> | [-> | [-> | ->]]]]; eauto.
  - intros H. destruct (validate_ok_inv _ H)
      as (d' & vd & vc & vs & va & vq & [= <-] & Hdom & Hd & Sd & Hc & Sc
          & Hs & Ss & Ha & Sa & Hq & Sq).
    rewrite (field_ok_lookup _ _ _ _ Hs), (field_ok_lookup _ _ _ _ Hc),
      (field_ok_lookup _ _ _ _ Hd), (field_ok_lookup _ _ _ _ Hq),
      (field_ok_lookup _ _ _ _ Ha), !conforms_string, !conforms_array.
    rewrite Hdom, !elem_of_expected_keys. rewrite Sd, Sc, Ss, Sa, Sq.
    repeat split; auto 10.
Qed.

End SchemaProperties.

(** ** The further properties on the example processes *)

Lemma non_dict_is_rejected_witness :
  _validate_result (PList []) = inl (AttributeError "list" "keys").
Proof.
  apply (non_dict_is_rejected Demo.create_ok Demo.json_loads (PList [])
           Demo.the_client Scenario.request45 MEDIUM 45 Demo.ready
           {| choices := [] |}).
  intros d. discriminate.
Defined.

Lemma missing_keys_are_not_named_witness :
  _validate_result (PDict Scenario.without_summary)
  = inl (ValueError (MsgUnexpectedKeys ∅)).
Proof.
  apply missing_keys_are_not_named.
  apply (bool_decide_unpack _). vm_compute. exact I.
Defined.

Lemma client_is_cached_witness :
  get_openai_client Demo.getenv_key Demo.OpenAI Scenario.unavailable
  = (inr None, Scenario.unavailable).
Proof.
  apply (client_is_cached Demo.getenv_none Demo.OpenAI Demo.getenv_key
           Demo.OpenAI Demo.fresh).
  reflexivity.
Defined.

Lemma configuration_failure_is_permanent_witness :
  generate_lesson_content Demo.getenv_key Demo.OpenAI Demo.create_ok
    Demo.json_loads Demo.topic Demo.subject Demo.grade 45
    Scenario.unavailable
  = (inl (ValueError MsgNotConfigured), Scenario.unavailable).
Proof.
  apply (configuration_failure_is_permanent Demo.getenv_none Demo.OpenAI
           Demo.create_ok Demo.json_loads Demo.getenv_key Demo.OpenAI
           Demo.create_ok Demo.json_loads Demo.topic Demo.subject
           Demo.grade 45 Demo.topic Demo.subject Demo.grade 45 Demo.fresh).
  reflexivity.
Defined.

Lemma constructor_failure_is_configuration_error_witness :
  generate_lesson_content Demo.getenv_key Scenario.OpenAI_broken
    Demo.create_ok Demo.json_loads Demo.topic Demo.subject Demo.grade 45
    Demo.fresh
  = (inl (ValueError MsgNotConfigured),
     {| _client := SlotFalse;
        trace := [EvError (LogClientInitFailed Scenario.broken)] |}).
Proof.
  apply (constructor_failure_is_configuration_error Demo.getenv_key
           Scenario.OpenAI_broken Demo.create_ok Demo.json_loads
           Demo.topic Demo.subject Demo.grade 45 Demo.fresh
           (PyStr.lit "sk-demo") Scenario.broken);
    [reflexivity|reflexivity|discriminate|reflexivity].
Defined.

Lemma empty_key_counts_as_missing_witness :
  generate_lesson_content Scenario.getenv_empty Demo.OpenAI Demo.create_ok
    Demo.json_loads Demo.topic Demo.subject Demo.grade 45 Demo.fresh
  = (inl (ValueError MsgNotConfigured), Scenario.unavailable).
Proof.
  apply (empty_key_counts_as_missing Scenario.getenv_empty Demo.OpenAI
           Demo.create_ok Demo.json_loads Demo.topic Demo.subject
           Demo.grade 45 Demo.fresh); reflexivity.
Defined.

Lemma demo_truncated_fails (n : nat) (t : tier) (d : Z) (r : request) :
  attempt_fails Demo.json_loads t d
    (Demo.create_truncated Demo.the_client n r) (ValueError MsgTruncated).
Proof. by eapply (fails_truncated _ _ _ _ Demo.length_ok). Defined.

Lemma demo_exhausted :
  (generate_lesson_content Demo.getenv_key Demo.OpenAI Demo.create_truncated
     Demo.json_loads Demo.topic Demo.subject Demo.grade 45 Demo.fresh).1
  = inl (Exception_
           (MsgFailedAfterRetries (Some (ValueError MsgTruncated)))).
Proof.
  rewrite (generate_with_client _ _ _ _ _ _ _ _ _ _ _ demo_client).
  rewrite (retry_loop_all_fail Demo.create_truncated Demo.json_loads
             Demo.the_client _ _ 45 [1; 2; 3]%Z
             [ValueError MsgTruncated; ValueError MsgTruncated;
              ValueError MsgTruncated]);
    [reflexivity|reflexivity|].
  intros i e Hi. apply list_elem_of_lookup_2 in Hi.
  repeat (apply elem_of_cons in Hi as [->|Hi];
          [apply demo_truncated_fails|]).
  by apply elem_of_nil in Hi.
Defined.

Lemma raised_errors_are_two_kinds_witness :
  ∃ e3,
    (generate_lesson_content Demo.getenv_key Demo.OpenAI
       Demo.create_truncated Demo.json_loads Demo.topic Demo.subject
       Demo.grade 45 Demo.fresh).1
    = inl (Exception_ (MsgFailedAfterRetries (Some e3))).
Proof.
  destruct (raised_errors_are_two_kinds Demo.getenv_key Demo.OpenAI
              Demo.create_truncated Demo.json_loads Demo.topic Demo.subject
              Demo.grade 45 Demo.fresh _ demo_exhausted)
    as [[[=] _]|(cl & e1 & e2 & e3 & _ & He & _)].
  exists e3. rewrite demo_exhausted. by rewrite He.
Defined.

Lemma first_passing_answer_is_returned_witness :
  generate_lesson_content Demo.getenv_key Demo.OpenAI
    Scenario.create_second_ok Demo.json_loads Demo.topic Demo.subject
    Demo.grade 45 Demo.fresh
  = (inr (Demo.bundle_of (Demo.words 600)),
     after Demo.ready
       (failures Demo.the_client Scenario.request45 [1%Z]
          [ValueError MsgTruncated]
        ++ accepted_events Demo.the_client Scenario.request45 MEDIUM
             (Demo.words 600))).
Proof.
  apply (first_passing_answer_is_returned Demo.getenv_key Demo.OpenAI
           Scenario.create_second_ok Demo.json_loads Demo.topic Demo.subject
           Demo.grade 45 Demo.fresh Demo.ready Demo.the_client
           [1%Z] 2%Z [3%Z] [ValueError MsgTruncated]
           {| choices := [Demo.stop_ok] |}).
  - exact demo_client.
  - reflexivity.
  - reflexivity.
  - intros [|i] e Hi; [|by destruct i]. injection Hi as <-.
    by eapply (fails_truncated _ _ _ _ Demo.length_ok).
  - reflexivity.
  - apply demo_passes. apply Z.leb_le. vm_compute. reflexivity.
Defined.

Lemma demo_returns :
  generate_lesson_content Demo.getenv_key Demo.OpenAI Demo.create_ok
    Demo.json_loads Demo.topic Demo.subject Demo.grade 45 Demo.fresh
  = (inr (Demo.bundle_of (Demo.words 600)),
     after Demo.ready
       (accepted_events Demo.the_client Scenario.request45 MEDIUM
          (Demo.words 600))).
Proof.
  rewrite (generate_with_client _ _ _ _ _ _ _ _ _ _ _ demo_client).
  apply (retry_loop_accept_step Demo.create_ok Demo.json_loads
           Demo.the_client _ _ 45 1%Z [2; 3]%Z None Demo.ready
           {| choices := [Demo.stop_ok] |}); [reflexivity|].
  apply demo_passes. apply Z.leb_le. vm_compute. reflexivity.
Defined.

Lemma returned_bundle_was_decoded_witness :
  ∃ cl i resp text,
    (i < 3)%nat ∧
    Demo.create_ok cl (calls_made Demo.fresh + i)%nat Scenario.request45
    = inr resp ∧
    passes_checks Demo.json_loads (tier_params 45) resp
      (Demo.bundle_of (Demo.words 600)) text.
Proof.
  exact (returned_bundle_was_decoded Demo.getenv_key Demo.OpenAI
           Demo.create_ok Demo.json_loads Demo.topic Demo.subject
           Demo.grade 45 Demo.fresh _ _ demo_returns).
Defined.

Lemma blank_answer_is_rejected_witness :
  attempt_body Scenario.create_blank Demo.json_loads Demo.the_client
    Scenario.request45 MEDIUM 45 Demo.ready
  = (inl (ValueError MsgEmptyResponse),
     after Demo.ready [EvCreate Demo.the_client Scenario.request45]).
Proof.
  apply (blank_answer_is_rejected Scenario.create_blank Demo.json_loads
           Demo.the_client Scenario.request45 MEDIUM 45 Demo.ready
           {| choices := [Scenario.blank] |} Scenario.blank);
    [reflexivity|reflexivity|discriminate|].
  right. exists (PyStr.lit "   "). split; reflexivity.
Defined.

Lemma answer_without_choices_is_rejected_witness :
  retry_loop Scenario.create_no_choice Demo.json_loads [3%Z] None
    Demo.the_client Scenario.request45 MEDIUM 45 Demo.ready
  = retry_loop Scenario.create_no_choice Demo.json_loads [] (Some IndexError)
      Demo.the_client Scenario.request45 MEDIUM 45
      (after Demo.ready
         (failed_events Demo.the_client Scenario.request45 3 IndexError)).
Proof.
  apply (answer_without_choices_is_rejected Scenario.create_no_choice
           Demo.json_loads Demo.the_client Scenario.request45 MEDIUM 45
           3%Z [] None Demo.ready {| choices := [] |}); reflexivity.
Defined.

Lemma tiers_grow_with_duration_witness :
  (min_words (tier_params 20) ≤ min_words (tier_params 90))%Z.
Proof.
  destruct (tiers_grow_with_duration 20 90) as [H _]; [lia|exact H].
Defined.

Lemma returned_content_has_280_words_witness :
  ∃ text,
    Demo.bundle_of (Demo.words 600) !! k_content = Some (PStr text) ∧
    (280 ≤ word_count text)%Z.
Proof.
  exact (returned_content_has_280_words Demo.getenv_key Demo.OpenAI
           Demo.create_ok Demo.json_loads Demo.topic Demo.subject
           Demo.grade 45 Demo.fresh _ _ demo_returns).
Defined.

Lemma generated_lists_pass_the_serializer_witness :
  ∃ a q,
    Demo.bundle_of (Demo.words 600) !! k_activities = Some a ∧
    Demo.bundle_of (Demo.words 600) !! k_questions = Some q ∧
    Serializers.validate_activities a = inr a ∧
    Serializers.validate_questions q = inr q.
Proof.
  exact (generated_lists_pass_the_serializer Demo.getenv_key Demo.OpenAI
           Demo.create_ok Demo.json_loads Demo.topic Demo.subject
           Demo.grade 45 Demo.fresh _ _ demo_returns).
Defined.

Lemma non_owner_never_writes_witness :
  Permissions.IsLessonOwner.has_object_permission
    Scenario.anonymous_delete Scenario.public_lesson = false.
Proof.
  destruct (non_owner_never_writes Scenario.anonymous_delete
              Scenario.public_lesson) as [H _];
    [discriminate|by apply (bool_decide_unpack _)|exact H].
Defined.

Lemma private_lesson_is_for_its_owner_witness :
  Permissions.IsLessonOwner.has_object_permission
    Scenario.anonymous_get Scenario.private_lesson = true
  ↔ Permissions.request_user Scenario.anonymous_get = Permissions.User 1.
Proof.
  destruct (private_lesson_is_for_its_owner Scenario.anonymous_get
              Scenario.private_lesson) as [H _]; [reflexivity|exact H].
Defined.

Lemma public_read_and_owner_access_witness :
  Permissions.IsLessonOwner.has_object_permission
    Scenario.owner_put Scenario.private_lesson = true.
Proof.
  destruct (public_read_and_owner_access Scenario.owner_put
              Scenario.private_lesson) as [H _];
    [right; reflexivity|exact H].
Defined.
